(** * photon-controller-cli: the cluster commands and the readiness waiter

    A shallow embedding of [photon/command/clusters.go]:
    [waitForCluster], [readSSHKey], [validateSSHKey], [resizeCluster],
    [deleteCluster] and [createCluster].

    Calls that leave the file (the API client, the prompt helpers, the file
    system, the clock) are answered by a [World] of oracles, and every such
    call is recorded, in program order, in a trace of [Event]s.  A Go
    function body is a value of [Body R A]: the events it emitted, and
    whether it fell through with an [A], executed [return r], or panicked. *)

From stdpp Require Import base option list strings gmap.
From Stdlib Require Import ZArith NArith Lia Ascii String.

Local Open Scope string_scope.
Local Open Scope list_scope.
Local Open Scope Z_scope.

(** ** Go values *)

(** Go's [error] interface.  [Errorf] is the value built by [fmt.Errorf]
    with its formatted message; [NumError] is what [strconv.Atoi] reports;
    [Foreign] is any error value handed back by a callee outside this file. *)
Inductive NumErrKind : Type := ErrSyntax | ErrRange.

Inductive error : Type :=
| Errorf (msg : string)
| NumError (num : string) (kind : NumErrKind)
| Foreign (what : string).

(** [time.Duration]: a count of nanoseconds. *)
Definition Nanosecond : Z := 1.
Definition Second : Z := 1000000000 * Nanosecond.
Definition Minute : Z := 60 * Second.

(** [strings.ToUpper], as far as the source uses it: its result is only
    ever compared with the ASCII words ERROR, READY, KUBERNETES, MESOS and
    SWARM.  Go maps each rune to its upper case.  The letters a..z go to
    A..Z; exactly two runes outside ASCII have an ASCII upper case, the
    dotless i (bytes C4 B1, upper case I) and the long s (bytes C5 BF, upper
    case S); every other rune outside ASCII, and every byte that is not
    valid UTF-8, yields bytes outside ASCII.  The model maps the letters and
    these two runes and leaves every other byte as it is, which decides the
    comparisons with ASCII words as Go does. *)
Definition upper_ascii (a : ascii) : ascii :=
  let n := nat_of_ascii a in
  if (97 <=? n)%nat && (n <=? 122)%nat then ascii_of_nat (n - 32) else a.

Definition is_byte (a : ascii) (n : nat) : bool := (nat_of_ascii a =? n)%nat.

Fixpoint ToUpper (s : string) : string :=
  match s with
  | EmptyString => EmptyString
  | String a s' =>
    match s' with
    | String b s'' =>
      if is_byte a 196 && is_byte b 177 then String "I"%char (ToUpper s'')
      else if is_byte a 197 && is_byte b 191 then String "S"%char (ToUpper s'')
      else String (upper_ascii a) (ToUpper s')
    | EmptyString => String (upper_ascii a) EmptyString
    end
  end.

(** ** The remote resource, as the SDK hands it over *)

(** [photon.Cluster]: the fields this file reads ([ID], [State]) and the two
    others the data model names. *)
Record Cluster : Type := mkCluster {
  ID : string;
  Name : string;
  State : string;
  WorkerCount : Z
}.

(** What [client.Esxclient.Clusters.Get] returns: a [*photon.Cluster], which
    may be nil, and an [error], which may be nil. *)
Definition GetResult : Type := (option Cluster * option error)%type.

(** [photon.Task] and its [Entity]: the fields this file reads. *)
Record Entity : Type := mkEntity { EntityID : string; Kind : string }.
Record Task : Type := mkTask { TaskID : string; TaskState : string; TaskEntity : Entity }.

(** [photon.ClusterCreateSpec] and [photon.ClusterResizeOperation]. *)
Record ClusterCreateSpec : Type := mkClusterCreateSpec {
  SpecName : string;
  SpecType : string;
  VMFlavor : string;
  DiskFlavor : string;
  NetworkID : string;
  SpecWorkerCount : Z;
  BatchSizeWorker : Z;
  ExtendedProperties : gmap string string
}.

Record ClusterResizeOperation : Type := mkClusterResizeOperation {
  NewWorkerCount : Z
}.

(** The results of [verifyTenant] and [verifyProject]: only [.ID] is read. *)
Record TenantConfiguration : Type := mkTenant { TenantID : string }.
Record ProjectConfiguration : Type := mkProject { ProjectID : string }.

(** An opened [*os.File] as [readSSHKey] uses it: what the line scanner
    yields for the first [Scan]/[Text], what [scanner.Err] says afterwards,
    and what [file.Close] says. *)
Record File : Type := mkFile {
  firstLine : string;
  scanErr : option error;
  closeErr : option error
}.

(** [*cli.Context]: the positional arguments and the flag accessors. *)
Record Context : Type := mkContext {
  Args : list string;
  String_ : string -> string;
  Int_ : string -> Z;
  IsSet : string -> bool;
  GlobalIsSet : string -> bool
}.

(** The keys of the extended-properties map, constants of the SDK. *)
Record PropertyKeys : Type := mkPropertyKeys {
  ExtendedPropertyDNS : string;
  ExtendedPropertyGateway : string;
  ExtendedPropertyNetMask : string;
  ExtendedPropertySSHKey : string;
  ExtendedPropertyMasterIP : string;
  ExtendedPropertyContainerNetwork : string;
  ExtendedPropertyETCDIP1 : string;
  ExtendedPropertyETCDIP2 : string;
  ExtendedPropertyETCDIP3 : string;
  ExtendedPropertyZookeeperIP1 : string;
  ExtendedPropertyZookeeperIP2 : string;
  ExtendedPropertyZookeeperIP3 : string
}.

(** ** The world outside the file

    One answer per call.  [Clusters_Get k id] answers the [k]-th fetch of a
    wait (counting from 0).  [lag k] is the time, in nanoseconds, that
    iteration [k] of the wait takes on top of the poll delay: the latency of
    the fetch and whatever [time.Sleep] oversleeps. *)
Record World : Type := mkWorld {
  Clusters_Get : nat -> string -> GetResult;
  lag : nat -> N;
  client_GetClient : bool -> option error;
  utils_IsNonInteractive : Context -> bool;
  utils_NeedsFormatting : Context -> bool;
  confirmed : bool -> bool;
  askForInput : string -> string -> string * option error;
  verifyTenant : string -> option TenantConfiguration * option error;
  verifyProject : string -> string -> option ProjectConfiguration * option error;
  waitOnTaskOperation : string -> option error;
  Projects_CreateCluster : string -> ClusterCreateSpec -> option Task * option error;
  Clusters_Resize : string -> ClusterResizeOperation -> option Task * option error;
  Clusters_Delete : string -> option Task * option error;
  os_Open : string -> File + error;
  strings_TrimSpace : string -> string;
  keys : PropertyKeys
}.

(** ** Events and outcomes *)

(** An argument of [fmt.Printf]: [%s] or [%d]. *)
Inductive FmtArg : Type := FmtS (s : string) | FmtD (n : Z).

Inductive Event : Type :=
(* the readiness waiter *)
| EvGoDisplayTaskProgress
| EvClustersGet (k : nat) (id : string)
| EvSleep (d : Z)
| EvEndAnimation
| EvWgWait
(* the client and the helpers of the package *)
| EvGetClient (nonInteractive : bool)
| EvVerifyTenant (name : string)
| EvVerifyProject (tenantID name : string)
| EvAskForInput (msg orig : string)
| EvConfirmed (nonInteractive : bool)
| EvCreateCluster (projectID : string) (spec : ClusterCreateSpec)
| EvResize (id : string) (op : ClusterResizeOperation)
| EvDelete (id : string)
| EvWaitOnTaskOperation (taskID : string)
| EvFormatObject (cluster : option Cluster)
(* the file system and the terminal *)
| EvOpen (filename : string)
| EvClose (filename : string)
| EvPrintf (format : string) (args : list FmtArg)
| EvPrintln (line : string).

(** How a call of a function ends: it returns, or it panics; [OutOfFuel]
    is the model of a loop giving up, which [waitForCluster] is shown never
    to do. *)
Inductive Outcome (A : Type) : Type :=
| Returned (a : A)
| Panicked (why : string)
| OutOfFuel.
Arguments Returned {A} a.
Arguments Panicked {A} why.
Arguments OutOfFuel {A}.

Definition nil_dereference : string :=
  "invalid memory address or nil pointer dereference".

(** ** Function bodies

    [Next a]: control falls through with [a]; [Return r]: a [return]
    statement ran; [Panic]: a run-time panic; [NoFuel]: the model of a loop
    ran out of fuel (shown below never to happen). *)
Inductive Step (R A : Type) : Type :=
| Next (a : A)
| Return (r : R)
| Panic (why : string)
| NoFuel.
Arguments Next {R A} a.
Arguments Return {R A} r.
Arguments Panic {R A} why.
Arguments NoFuel {R A}.

Definition Body (R A : Type) : Type := (list Event * Step R A)%type.

Definition pure {R A} (a : A) : Body R A := ([], Next a).

Definition bind {R A B} (m : Body R A) (f : A -> Body R B) : Body R B :=
  match m with
  | (t, Next a) => let '(t', s) := f a in (t ++ t', s)
  | (t, Return r) => (t, Return r)
  | (t, Panic why) => (t, Panic why)
  | (t, NoFuel) => (t, NoFuel)
  end.

Definition emit {R} (e : Event) : Body R unit := ([e], Next tt).
Definition return_ {R A} (r : R) : Body R A := ([], Return r).
Definition panic {R A} (why : string) : Body R A := ([], Panic why).
Definition out_of_fuel {R A} : Body R A := ([], NoFuel).

(** [p.f] on a pointer [p]: a nil [p] panics. *)
Definition deref {R A} (p : option A) : Body R A :=
  match p with
  | Some a => pure a
  | None => panic nil_dereference
  end.

(** A whole function: its body must leave through [return]. *)
Definition run {R} (m : Body R R) : list Event * Outcome R :=
  match m with
  | (t, Next r) => (t, Returned r)
  | (t, Return r) => (t, Returned r)
  | (t, Panic why) => (t, Panicked why)
  | (t, NoFuel) => (t, OutOfFuel)
  end.

(** Calling a function from another body: its result is the value of the
    call, its panic unwinds the caller. *)
Definition call {R A} (callee : list Event * Outcome A) : Body R A :=
  match callee with
  | (t, Returned a) => (t, Next a)
  | (t, Panicked why) => (t, Panic why)
  | (t, OutOfFuel) => (t, NoFuel)
  end.

Declare Scope body_scope.
Delimit Scope body_scope with body.
Notation "x <- m ;; k" := (bind m (fun x => k))
  (at level 100, m at next level, right associativity) : body_scope.
Notation "m ;;; k" := (bind m (fun _ => k))
  (at level 100, right associativity) : body_scope.
Local Open Scope body_scope.

(** [if cond { body }] where [body] may return. *)
Definition when {R} (cond : bool) (body : Body R unit) : Body R unit :=
  if cond then body else pure tt.

Definition is_nil {A} (p : option A) : bool :=
  match p with None => true | Some _ => false end.

(** ** [waitForCluster]: the resource readiness waiter *)

Definition taskPollTimeout : Z := 60 * Minute.
Definition taskPollDelay : Z := 2 * Second.
Definition taskRetryCount : Z := 3.

Definition error_state_message (id : string) : string :=
  "Cluster " +:+ id +:+ " entered ERROR state".
Definition timeout_message : string :=
  "Timed out while waiting for cluster to enter READY state".

(** The named results [(cluster, err)] of the Go function. *)
Definition WaitResult : Type := (option Cluster * option error)%type.

(** The [for time.Since(start) < taskPollTimeout] loop.  [k] counts the
    fetches made so far, [since] is what [time.Since(start)] reads at the
    head of the loop, [numErr], [cluster] and [err] are the Go variables.
    Falling through ([Next]) is the loop condition turning false; it hands
    on the variables [cluster] and [err] as they stand. *)
Fixpoint pollLoop (w : World) (id : string) (fuel k : nat) (since numErr : Z)
    (cluster : option Cluster) (err : option error)
    : Body WaitResult WaitResult :=
  match fuel with
  | O => out_of_fuel
  | S fuel' =>
    if since <? taskPollTimeout then
      emit (EvClustersGet k id) ;;;
      let cluster := fst (Clusters_Get w k id) in
      let err := snd (Clusters_Get w k id) in
      numErr <- (if negb (is_nil err) then
                   let numErr := numErr + 1 in
                   when (numErr >? taskRetryCount)
                     (emit EvEndAnimation ;;;
                      emit EvWgWait ;;;
                      return_ (cluster, err)) ;;;
                   pure numErr
                 else pure numErr) ;;
      c <- deref cluster ;;
      (if String.eqb (ToUpper (State c)) "ERROR" then
         emit EvEndAnimation ;;;
         emit EvWgWait ;;;
         return_ (cluster, Some (Errorf (error_state_message id)))
       else if String.eqb (ToUpper (State c)) "READY" then
         emit EvEndAnimation ;;;
         emit EvWgWait ;;;
         return_ (cluster, err)
       else pure tt) ;;;
      emit (EvSleep taskPollDelay) ;;;
      pollLoop w id fuel' (S k) (since + taskPollDelay + Z.of_N (lag w k))
               numErr cluster err
    else pure (cluster, err)
  end.

(** Every turn of the loop that goes round again sleeps [taskPollDelay], so
    the loop is entered at most [taskPollTimeout / taskPollDelay] times and
    its condition is read once more. *)
Definition poll_fuel : nat := S (Z.to_nat (taskPollTimeout / taskPollDelay)).

Definition waitForCluster (w : World) (id : string)
    : list Event * Outcome WaitResult :=
  run (emit EvGoDisplayTaskProgress ;;;
       r <- pollLoop w id poll_fuel 0%nat 0 0 None None ;;
       emit EvEndAnimation ;;;
       emit EvWgWait ;;;
       return_ (fst r, Some (Errorf timeout_message))).

(** *** What one turn of the loop does with a fetch *)

Definition is_terminal (c : Cluster) : bool :=
  String.eqb (ToUpper (State c)) "ERROR" || String.eqb (ToUpper (State c)) "READY".

(** [numErr] after the fetch [g]. *)
Definition bump (numErr : Z) (g : GetResult) : Z :=
  if is_nil (snd g) then numErr else numErr + 1.

(** The fetch [g] exhausts the retry budget. *)
Definition exceeds (numErr : Z) (g : GetResult) : bool :=
  negb (is_nil (snd g)) && (bump numErr g >? taskRetryCount).

Definition next_since (w : World) (k : nat) (since : Z) : Z :=
  since + taskPollDelay + Z.of_N (lag w k).


(** ** Helpers of the commands *)

(** Modelled from the spec: [checkArgNum], a helper of the package that is
    defined in another file.  It is the argument-count validation of a
    command: it reports an error exactly when the number of positional
    arguments differs from the number the command takes, and the error
    carries the usage line. *)
Definition checkArgNum (args : list string) (num : nat) (usage : string)
    : option error :=
  if (List.length args =? num)%nat then None else Some (Foreign usage).

(** [cli.Args.First]: the first argument, or the empty string. *)
Definition First (args : list string) : string :=
  match args with
  | [] => ""
  | a :: _ => a
  end.

(** [args[i]]: out of range panics. *)
Definition index {R} (args : list string) (i : nat) : Body R string :=
  match nth_error args i with
  | Some a => pure a
  | None => panic "index out of range"
  end.

(** [strconv.Atoi] on a 64-bit platform: an optional sign and at least one
    decimal digit, nothing else; a value outside [int] is a range error. *)
Definition maxInt : Z := 9223372036854775807.
Definition minInt : Z := -9223372036854775808.

Definition digit_value (a : ascii) : option Z :=
  let n := nat_of_ascii a in
  if (48 <=? n)%nat && (n <=? 57)%nat then Some (Z.of_nat (n - 48)) else None.

Fixpoint digits (s : string) (acc : Z) : option Z :=
  match s with
  | EmptyString => Some acc
  | String a s' =>
    match digit_value a with
    | Some d => digits s' (10 * acc + d)
    | None => None
    end
  end.

Definition Atoi (s : string) : Z * option error :=
  let '(neg, body) :=
    match s with
    | String "-"%char r => (true, r)
    | String "+"%char r => (false, r)
    | _ => (false, s)
    end in
  match body with
  | EmptyString => (0, Some (NumError s ErrSyntax))
  | _ =>
    match digits body 0 with
    | None => (0, Some (NumError s ErrSyntax))
    | Some n =>
      let v := if neg then - n else n in
      if v >? maxInt then (maxInt, Some (NumError s ErrRange))
      else if v <? minInt then (minInt, Some (NumError s ErrRange))
      else (v, None)
    end
  end.

Definition nl : string := String (ascii_of_nat 10) EmptyString.

(** The pattern [x, err = askForInput(msg, x); if err != nil { return err }]. *)
Definition ask (w : World) (msg orig : string) : Body (option error) string :=
  emit (EvAskForInput msg orig) ;;;
  let r := askForInput w msg orig in
  when (negb (is_nil (snd r))) (return_ (snd r)) ;;;
  pure (fst r).

(** ** [validateSSHKey] and [readSSHKey] *)

Definition validateSSHKey (key : string) : option error :=
  if (String.length key =? 0)%nat
  then Some (Errorf "The ssh-key file provided has no content")
  else None.

(** The deferred closure of [readSSHKey]: it runs when the function leaves,
    closes the file, and a failing [Close] overwrites the result [err]. *)
Definition defer_close (file : File) (filename : string)
    (body : Body (string * option error) (string * option error))
    : Body (string * option error) (string * option error) :=
  let overwrite (r : string * option error) :=
    (fst r, match closeErr file with Some e => Some e | None => snd r end) in
  match body with
  | (t, Next r) => (t ++ [EvClose filename], Next (overwrite r))
  | (t, Return r) => (t ++ [EvClose filename], Return (overwrite r))
  | (t, Panic why) => (t ++ [EvClose filename], Panic why)
  | (t, NoFuel) => (t, NoFuel)
  end.

Definition readSSHKey (w : World) (filename : string)
    : list Event * Outcome (string * option error) :=
  run (emit (EvOpen filename) ;;;
       match os_Open w filename with
       | inr e => return_ ("", Some e)
       | inl file =>
         defer_close file filename
           (let keystring := strings_TrimSpace w (firstLine file) in
            when (negb (is_nil (scanErr file))) (return_ ("", scanErr file)) ;;;
            let err := validateSSHKey keystring in
            when (negb (is_nil err)) (return_ ("", err)) ;;;
            return_ (keystring, None))
       end).

(** ** [resizeCluster] *)

Definition resizeCluster (w : World) (c : Context)
    : list Event * Outcome (option error) :=
  run (
    let err := checkArgNum (Args c) 2 "cluster resize <id> <new worker count> [<options>]" in
    when (negb (is_nil err)) (return_ err) ;;;
    cluster_id <- index (Args c) 0 ;;
    worker_count_string <- index (Args c) 1 ;;
    let worker_count := fst (Atoi worker_count_string) in
    let err := snd (Atoi worker_count_string) in
    let wait_for_ready := IsSet c "wait-for-ready" in
    when ((String.length cluster_id =? 0)%nat || negb (is_nil err) || (worker_count <=? 0))
      (return_ (Some (Errorf "Provide a valid cluster ID and worker count"))) ;;;
    emit (EvGetClient (utils_IsNonInteractive w c)) ;;;
    let err := client_GetClient w (utils_IsNonInteractive w c) in
    when (negb (is_nil err)) (return_ err) ;;;
    when (negb (utils_IsNonInteractive w c))
      (emit (EvPrintf (nl +:+ "Resizing cluster %s to worker count %d" +:+ nl)
                      [FmtS cluster_id; FmtD worker_count])) ;;;
    emit (EvConfirmed (utils_IsNonInteractive w c)) ;;;
    (if confirmed w (utils_IsNonInteractive w c) then
       let resizeSpec := {| NewWorkerCount := worker_count |} in
       emit (EvResize cluster_id resizeSpec) ;;;
       let resizeTask := fst (Clusters_Resize w cluster_id resizeSpec) in
       let err := snd (Clusters_Resize w cluster_id resizeSpec) in
       when (negb (is_nil err)) (return_ err) ;;;
       task <- deref resizeTask ;;
       emit (EvWaitOnTaskOperation (TaskID task)) ;;;
       let err := waitOnTaskOperation w (TaskID task) in
       when (negb (is_nil err)) (return_ err) ;;;
       if wait_for_ready then
         r <- call (waitForCluster w cluster_id) ;;
         when (negb (is_nil (snd r))) (return_ (snd r)) ;;;
         if utils_NeedsFormatting w c then
           emit (EvFormatObject (fst r))
         else
           cluster <- deref (fst r) ;;
           emit (EvPrintf ("Cluster %s is ready" +:+ nl) [FmtS (ID cluster)])
       else
         emit (EvPrintln "Note: A background task is running to gradually resize the cluster to its target capacity.") ;;;
         emit (EvPrintf ("You may continue to use the cluster. You can run 'cluster show %s'" +:+ nl)
                        [FmtS (EntityID (TaskEntity task))]) ;;;
         emit (EvPrintln "to see the state of the cluster. If the resize operation is still in progress, the cluster state") ;;;
         emit (EvPrintln "will show as RESIZING. Once the cluster is resized, the cluster state will show as READY.")
     else
       emit (EvPrintln "Cancelled")) ;;;
    return_ None).

(** ** [deleteCluster] *)

Definition deleteCluster (w : World) (c : Context)
    : list Event * Outcome (option error) :=
  run (
    let err := checkArgNum (Args c) 1 "cluster delete <id>" in
    when (negb (is_nil err)) (return_ None) ;;;
    let cluster_id := First (Args c) in
    when (String.length cluster_id =? 0)%nat
      (return_ (Some (Errorf "Please provide a valid cluster ID"))) ;;;
    emit (EvGetClient (utils_IsNonInteractive w c)) ;;;
    let err := client_GetClient w (utils_IsNonInteractive w c) in
    when (negb (is_nil err)) (return_ err) ;;;
    when (negb (utils_IsNonInteractive w c))
      (emit (EvPrintf (nl +:+ "Deleting cluster %s" +:+ nl) [FmtS cluster_id])) ;;;
    emit (EvConfirmed (utils_IsNonInteractive w c)) ;;;
    (if confirmed w (utils_IsNonInteractive w c) then
       emit (EvDelete cluster_id) ;;;
       let deleteTask := fst (Clusters_Delete w cluster_id) in
       let err := snd (Clusters_Delete w cluster_id) in
       when (negb (is_nil err)) (return_ err) ;;;
       task <- deref deleteTask ;;
       emit (EvWaitOnTaskOperation (TaskID task)) ;;;
       let err := waitOnTaskOperation w (TaskID task) in
       when (negb (is_nil err)) (return_ err)
     else
       emit (EvPrintln "Cancelled")) ;;;
    return_ None).

(** ** The [Action] of a subcommand

    [err := deleteCluster(c); if err != nil { log.Fatal(err) }], and the
    same around the other commands: [log.Fatal] prints the error and exits
    with status 1. *)
Inductive Exit : Type :=
| Finished
| Fatal (e : error)
| Crashed (why : string)
| Stuck.

Definition Action (command : list Event * Outcome (option error)) : Exit :=
  match snd command with
  | Returned None => Finished
  | Returned (Some e) => Fatal e
  | Panicked why => Crashed why
  | OutOfFuel => Stuck
  end.

(** ** [createCluster] *)

Definition DEFAULT_WORKER_COUNT : Z := 1.

Definition nonempty (s : string) : bool := negb (String.length s =? 0)%nat.

Definition createCluster (w : World) (c : Context)
    : list Event * Outcome (option error) :=
  run (
    let err := checkArgNum (Args c) 0 "cluster create [<options>]" in
    when (negb (is_nil err)) (return_ err) ;;;
    let tenantName := String_ c "tenant" in
    let projectName := String_ c "project" in
    let name := String_ c "name" in
    let cluster_type := String_ c "type" in
    let vm_flavor := String_ c "vm_flavor" in
    let disk_flavor := String_ c "disk_flavor" in
    let network_id := String_ c "network_id" in
    let worker_count := Int_ c "worker_count" in
    let dns := String_ c "dns" in
    let gateway := String_ c "gateway" in
    let netmask := String_ c "netmask" in
    let master_ip := String_ c "master-ip" in
    let container_network := String_ c "container-network" in
    let zookeeper1 := String_ c "zookeeper1" in
    let zookeeper2 := String_ c "zookeeper2" in
    let zookeeper3 := String_ c "zookeeper3" in
    let etcd1 := String_ c "etcd1" in
    let etcd2 := String_ c "etcd2" in
    let etcd3 := String_ c "etcd3" in
    let batch_size := Int_ c "batchSize" in
    let ssh_key := String_ c "ssh-key" in
    let wait_for_ready := IsSet c "wait-for-ready" in
    let interactive := negb (utils_IsNonInteractive w c) in

    emit (EvGetClient (GlobalIsSet c "non-interactive")) ;;;
    let err := client_GetClient w (GlobalIsSet c "non-interactive") in
    when (negb (is_nil err)) (return_ err) ;;;

    emit (EvVerifyTenant tenantName) ;;;
    let tenant := fst (verifyTenant w tenantName) in
    let err := snd (verifyTenant w tenantName) in
    when (negb (is_nil err)) (return_ err) ;;;

    tenant <- deref tenant ;;
    emit (EvVerifyProject (TenantID tenant) projectName) ;;;
    let project := fst (verifyProject w (TenantID tenant) projectName) in
    let err := snd (verifyProject w (TenantID tenant) projectName) in
    when (negb (is_nil err)) (return_ err) ;;;

    asked <- (if interactive then
                name <- ask w "Cluster name: " name ;;
                cluster_type <- ask w "Cluster type: " cluster_type ;;
                worker_count <-
                  (if worker_count =? 0 then
                     worker_count_string <- ask w "Worker count: " "" ;;
                     when (negb (is_nil (snd (Atoi worker_count_string))))
                       (return_ (Some (Errorf "Please supply a valid worker count"))) ;;;
                     pure (fst (Atoi worker_count_string))
                   else pure worker_count) ;;
                pure (name, cluster_type, worker_count)
              else pure (name, cluster_type, worker_count)) ;;
    let '(name, cluster_type, worker_count) := asked in

    when ((String.length name =? 0)%nat || (String.length cluster_type =? 0)%nat)
      (return_ (Some (Errorf "Provide a valid cluster name and type"))) ;;;

    let worker_count := if worker_count =? 0 then DEFAULT_WORKER_COUNT else worker_count in

    asked <- (if interactive then
                dns <- ask w "Cluster DNS server: " dns ;;
                gateway <- ask w "Cluster network gateway: " gateway ;;
                netmask <- ask w "Cluster network netmask: " netmask ;;
                ssh_key <- ask w "Cluster ssh key file path (leave blank for none): " ssh_key ;;
                pure (dns, gateway, netmask, ssh_key)
              else pure (dns, gateway, netmask, ssh_key)) ;;
    let '(dns, gateway, netmask, ssh_key) := asked in

    when ((String.length dns =? 0)%nat || (String.length gateway =? 0)%nat
          || (String.length netmask =? 0)%nat)
      (return_ (Some (Errorf "Provide a valid DNS, gateway, and netmask"))) ;;;

    let extended_properties : gmap string string := ∅ in
    let extended_properties := <[ExtendedPropertyDNS (keys w) := dns]> extended_properties in
    let extended_properties := <[ExtendedPropertyGateway (keys w) := gateway]> extended_properties in
    let extended_properties := <[ExtendedPropertyNetMask (keys w) := netmask]> extended_properties in
    extended_properties <-
      (if nonempty ssh_key then
         r <- call (readSSHKey w ssh_key) ;;
         if is_nil (snd r)
         then pure (<[ExtendedPropertySSHKey (keys w) := fst r]> extended_properties)
         else return_ (snd r)
       else pure extended_properties) ;;

    let cluster_type := ToUpper cluster_type in
    extended_properties <-
      (if String.eqb cluster_type "KUBERNETES" then
         asked <- (if interactive then
                     master_ip <- ask w "Kubernetes master static IP address: " master_ip ;;
                     container_network <- ask w "Kubernetes worker network ID: " container_network ;;
                     etcd1 <- ask w "etcd server 1 static IP address: " etcd1 ;;
                     etcd2 <- ask w "etcd server 2 static IP address (leave blank for none): " etcd2 ;;
                     etcd3 <- (if nonempty etcd2
                               then ask w "etcd server 3 static IP address (leave blank for none): " etcd3
                               else pure etcd3) ;;
                     pure (master_ip, container_network, etcd1, etcd2, etcd3)
                   else pure (master_ip, container_network, etcd1, etcd2, etcd3)) ;;
         let '(master_ip, container_network, etcd1, etcd2, etcd3) := asked in
         let extended_properties := <[ExtendedPropertyMasterIP (keys w) := master_ip]> extended_properties in
         let extended_properties :=
           <[ExtendedPropertyContainerNetwork (keys w) := container_network]> extended_properties in
         let extended_properties := <[ExtendedPropertyETCDIP1 (keys w) := etcd1]> extended_properties in
         pure (if nonempty etcd2 then
                 let extended_properties := <[ExtendedPropertyETCDIP2 (keys w) := etcd2]> extended_properties in
                 if nonempty etcd3
                 then <[ExtendedPropertyETCDIP3 (keys w) := etcd3]> extended_properties
                 else extended_properties
               else extended_properties)
       else if String.eqb cluster_type "MESOS" then
         asked <- (if interactive then
                     zookeeper1 <- ask w "Zookeeper server 1 static IP address: " zookeeper1 ;;
                     zookeeper2 <- ask w "Zookeeper server 2 static IP address (leave blank for none): " zookeeper2 ;;
                     zookeeper3 <- (if nonempty zookeeper2
                                    then ask w "Zookeeper server 3 static IP address (leave blank for none): " zookeeper3
                                    else pure zookeeper3) ;;
                     pure (zookeeper1, zookeeper2, zookeeper3)
                   else pure (zookeeper1, zookeeper2, zookeeper3)) ;;
         let '(zookeeper1, zookeeper2, zookeeper3) := asked in
         let extended_properties := <[ExtendedPropertyZookeeperIP1 (keys w) := zookeeper1]> extended_properties in
         pure (if nonempty zookeeper2 then
                 let extended_properties :=
                   <[ExtendedPropertyZookeeperIP2 (keys w) := zookeeper2]> extended_properties in
                 if nonempty zookeeper3
                 then <[ExtendedPropertyZookeeperIP3 (keys w) := zookeeper3]> extended_properties
                 else extended_properties
               else extended_properties)
       else if String.eqb cluster_type "SWARM" then
         asked <- (if interactive then
                     etcd1 <- ask w "etcd server 1 static IP address: " etcd1 ;;
                     etcd2 <- ask w "etcd server 2 static IP address (leave blank for none): " etcd2 ;;
                     etcd3 <- (if nonempty etcd2
                               then ask w "etcd server 3 static IP address (leave blank for none): " etcd3
                               else pure etcd3) ;;
                     pure (etcd1, etcd2, etcd3)
                   else pure (etcd1, etcd2, etcd3)) ;;
         let '(etcd1, etcd2, etcd3) := asked in
         let extended_properties := <[ExtendedPropertyETCDIP1 (keys w) := etcd1]> extended_properties in
         pure (if nonempty etcd2 then
                 let extended_properties := <[ExtendedPropertyETCDIP2 (keys w) := etcd2]> extended_properties in
                 if nonempty etcd3
                 then <[ExtendedPropertyETCDIP3 (keys w) := etcd3]> extended_properties
                 else extended_properties
               else extended_properties)
       else
         return_ (Some (Errorf ("Unsupported cluster type: " +:+ cluster_type)))) ;;

    let clusterSpec := {|
      SpecName := name;
      SpecType := cluster_type;
      VMFlavor := vm_flavor;
      DiskFlavor := disk_flavor;
      NetworkID := network_id;
      SpecWorkerCount := worker_count;
      BatchSizeWorker := batch_size;
      ExtendedProperties := extended_properties
    |} in

    when interactive
      (emit (EvPrintf nl []) ;;;
       emit (EvPrintf ("Creating cluster: %s (%s)" +:+ nl)
                      [FmtS (SpecName clusterSpec); FmtS (SpecType clusterSpec)]) ;;;
       when (nonempty (VMFlavor clusterSpec))
         (emit (EvPrintf ("  VM flavor: %s" +:+ nl) [FmtS (VMFlavor clusterSpec)])) ;;;
       when (nonempty (DiskFlavor clusterSpec))
         (emit (EvPrintf ("  Disk flavor: %s" +:+ nl) [FmtS (DiskFlavor clusterSpec)])) ;;;
       emit (EvPrintf ("  Worker count: %d" +:+ nl) [FmtD (SpecWorkerCount clusterSpec)]) ;;;
       when (negb (BatchSizeWorker clusterSpec =? 0))
         (emit (EvPrintf ("  Batch size: %d" +:+ nl) [FmtD (BatchSizeWorker clusterSpec)])) ;;;
       emit (EvPrintf nl [])) ;;;

    emit (EvConfirmed (utils_IsNonInteractive w c)) ;;;
    (if confirmed w (utils_IsNonInteractive w c) then
       project <- deref project ;;
       emit (EvCreateCluster (ProjectID project) clusterSpec) ;;;
       let createTask := fst (Projects_CreateCluster w (ProjectID project) clusterSpec) in
       let err := snd (Projects_CreateCluster w (ProjectID project) clusterSpec) in
       when (negb (is_nil err)) (return_ err) ;;;
       createTask <- deref createTask ;;
       emit (EvWaitOnTaskOperation (TaskID createTask)) ;;;
       let err := waitOnTaskOperation w (TaskID createTask) in
       when (negb (is_nil err)) (return_ err) ;;;
       if wait_for_ready then
         when (negb (utils_NeedsFormatting w c))
           (emit (EvPrintf ("Waiting for cluster %s to become ready" +:+ nl)
                           [FmtS (EntityID (TaskEntity createTask))])) ;;;
         r <- call (waitForCluster w (EntityID (TaskEntity createTask))) ;;
         when (negb (is_nil (snd r))) (return_ (snd r)) ;;;
         if utils_NeedsFormatting w c then
           emit (EvFormatObject (fst r))
         else
           cluster <- deref (fst r) ;;
           emit (EvPrintf ("Cluster %s is ready" +:+ nl) [FmtS (ID cluster)])
       else
         emit (EvPrintln "Note: the cluster has been created with minimal resources. You can use the cluster now.") ;;;
         emit (EvPrintln "A background task is running to gradually expand the cluster to its target capacity.") ;;;
         emit (EvPrintf ("You can run 'cluster show %s' to see the state of the cluster." +:+ nl)
                        [FmtS (EntityID (TaskEntity createTask))])
     else
       emit (EvPrintln "Cancelled")) ;;;
    return_ None).

(** ** Vocabulary for sequences of fetch results *)

(** The fetch failed: its [error] is not nil. *)
Definition failed (g : GetResult) : bool := negb (is_nil (snd g)).

(** The fetch handed over a resource, and its state is neither ERROR nor
    READY. *)
Definition in_progress (g : GetResult) : bool :=
  match fst g with
  | Some c => negb (is_terminal c)
  | None => false
  end.

(** The number of failed fetches among the [n] fetches from the [k]-th on. *)
Fixpoint failures (w : World) (id : string) (k n : nat) : Z :=
  match n with
  | O => 0
  | S n' => (if failed (Clusters_Get w k id) then 1 else 0) + failures w id (S k) n'
  end.

(** The time that the [n] turns from the [k]-th on take. *)
Fixpoint spent (w : World) (k n : nat) : Z :=
  match n with
  | O => 0
  | S n' => taskPollDelay + Z.of_N (lag w k) + spent w (S k) n'
  end.

(** No event of the trace touches the progress reporter. *)
Definition leaves_reporter_alone (t : list Event) : Prop :=
  ~ In EvGoDisplayTaskProgress t /\ ~ In EvEndAnimation t /\ ~ In EvWgWait t.

(** The longest run of consecutive failed fetches among the [n] fetches
    from the [k]-th on; [run] is the length of the run that fetch [k]
    would prolong. *)
Fixpoint longest_failure_run_from (w : World) (id : string) (k n run : nat) : nat :=
  match n with
  | O => run
  | S n' =>
    if failed (Clusters_Get w k id)
    then longest_failure_run_from w id (S k) n' (S run)
    else Nat.max run (longest_failure_run_from w id (S k) n' 0)
  end.

Definition longest_failure_run (w : World) (id : string) (n : nat) : nat :=
  longest_failure_run_from w id 0 n 0.

(** ** Specifications of bodies

    [ensures m P Q]: every event that the body [m] emits satisfies [P], and
    if [m] falls through with a value, the value satisfies [Q]. *)
Definition ensures {R A} (m : Body R A) (P : Event -> Prop) (Q : A -> Prop) : Prop :=
  Forall P (fst m) /\ forall a, snd m = Next a -> Q a.

(** The events of a whole function all satisfy [P]. *)
Definition emits_only {R} (f : list Event * Outcome R) (P : Event -> Prop) : Prop :=
  Forall P (fst f).

(** ** The inputs of [createCluster] *)

(** The worker count that [createCluster] holds once the flags are parsed
    and the prompt, if any, is answered: the flag, or in interactive mode
    with a zero flag the number typed at the prompt. *)
Definition supplied_worker_count (w : World) (c : Context) : Z :=
  if negb (utils_IsNonInteractive w c) && (Int_ c "worker_count" =? 0)
  then fst (Atoi (fst (askForInput w "Worker count: " "")))
  else Int_ c "worker_count".

(** What [createCluster] holds for an input once the flags are parsed and
    the prompts are answered: the flag, or in interactive mode what
    [askForInput] gives back for the prompt [msg] and the flag. *)
Definition entered (w : World) (c : Context) (msg flag : string) : string :=
  if negb (utils_IsNonInteractive w c)
  then fst (askForInput w msg (String_ c flag))
  else String_ c flag.

(** The five inputs that [createCluster] requires are all there. *)
Definition required_inputs_present (w : World) (c : Context) : bool :=
  nonempty (entered w c "Cluster name: " "name")
  && nonempty (entered w c "Cluster type: " "type")
  && nonempty (entered w c "Cluster DNS server: " "dns")
  && nonempty (entered w c "Cluster network gateway: " "gateway")
  && nonempty (entered w c "Cluster network netmask: " "netmask").

(** One of the required flags of [cluster create] is empty. *)
Definition missing_required_flag (c : Context) : bool :=
  (String.length (String_ c "name") =? 0)%nat
  || (String.length (String_ c "type") =? 0)%nat
  || (String.length (String_ c "dns") =? 0)%nat
  || (String.length (String_ c "gateway") =? 0)%nat
  || (String.length (String_ c "netmask") =? 0)%nat.

Definition create_validation_error (c : Context) : error :=
  if (String.length (String_ c "name") =? 0)%nat
     || (String.length (String_ c "type") =? 0)%nat
  then Errorf "Provide a valid cluster name and type"
  else Errorf "Provide a valid DNS, gateway, and netmask".

(** The arguments of [cluster resize] are rejected by its validation. *)
Definition resize_input_invalid (id count : string) : bool :=
  (String.length id =? 0)%nat || negb (is_nil (snd (Atoi count))) || (fst (Atoi count) <=? 0).

(** The events of [waitForCluster] and of [readSSHKey]. *)
Definition is_waiter_event (e : Event) : bool :=
  match e with
  | EvGoDisplayTaskProgress | EvClustersGet _ _ | EvSleep _ | EvEndAnimation | EvWgWait => true
  | _ => false
  end.

Definition is_file_event (e : Event) : bool :=
  match e with
  | EvOpen _ | EvClose _ => true
  | _ => false
  end.

(** What [createCluster] puts into the create request as the worker count. *)
Definition requested_worker_count (w : World) (c : Context) : Z :=
  if supplied_worker_count w c =? 0 then DEFAULT_WORKER_COUNT else supplied_worker_count w c.

Definition carries_worker_count (n : Z) (e : Event) : Prop :=
  match e with
  | EvCreateCluster _ spec => SpecWorkerCount spec = n
  | _ => True
  end.

(** The event is a request to the control plane that changes or polls a
    cluster or a task. *)
Definition reaches_control_plane (e : Event) : bool :=
  match e with
  | EvCreateCluster _ _ | EvResize _ _ | EvDelete _
  | EvWaitOnTaskOperation _ | EvClustersGet _ _ => true
  | _ => false
  end.

(** ** Sample worlds, for the examples *)

Definition creating : Cluster := mkCluster "c1" "demo" "CREATING" 3.
Definition ready : Cluster := mkCluster "c1" "demo" "Ready" 3.
Definition broken : Cluster := mkCluster "c1" "demo" "error" 3.

Definition sample_keys : PropertyKeys :=
  mkPropertyKeys "dns" "gateway" "netmask" "ssh_key" "master_ip" "container_network"
                 "etcd_ip1" "etcd_ip2" "etcd_ip3"
                 "zookeeper_ip1" "zookeeper_ip2" "zookeeper_ip3".

Definition sample_task : Task := mkTask "task1" "COMPLETED" (mkEntity "c1" "cluster").

(** A world in which every helper succeeds, prompts give back what they
    were handed, and the fetches of a wait answer [get]. *)
Definition world_with (get : nat -> GetResult) : World := {|
  Clusters_Get := fun k _ => get k;
  lag := fun _ => 0%N;
  client_GetClient := fun _ => None;
  utils_IsNonInteractive := fun c => GlobalIsSet c "non-interactive";
  utils_NeedsFormatting := fun _ => false;
  confirmed := fun _ => true;
  askForInput := fun _ orig => (orig, None);
  verifyTenant := fun _ => (Some (mkTenant "tenant1"), None);
  verifyProject := fun _ _ => (Some (mkProject "project1"), None);
  waitOnTaskOperation := fun _ => None;
  Projects_CreateCluster := fun _ _ => (Some sample_task, None);
  Clusters_Resize := fun _ _ => (Some sample_task, None);
  Clusters_Delete := fun _ => (Some sample_task, None);
  os_Open := fun _ => inr (Foreign "no such file or directory");
  strings_TrimSpace := fun s => s;
  keys := sample_keys
|}.

Definition unreachable : error := Foreign "connection refused".

(** CREATING twice, then READY. *)
Definition becomes_ready : World :=
  world_with (fun k => if (k <? 2)%nat then (Some creating, None) else (Some ready, None)).

(** CREATING once, then the ERROR state. *)
Definition becomes_broken : World :=
  world_with (fun k => if (k <? 1)%nat then (Some creating, None) else (Some broken, None)).

(** CREATING for ever. *)
Definition never_ready : World := world_with (fun _ => (Some creating, None)).

(** The first fetch fails and hands over no resource; CREATING afterwards. *)
Definition fails_first : World :=
  world_with (fun k => if (k =? 0)%nat then (None, Some unreachable) else (Some creating, None)).

(** Every fetch fails and hands over no resource. *)
Definition always_fails : World := world_with (fun _ => (None, Some unreachable)).

(** Fetches 0, 2, 4 and 6 fail, though each still hands over the resource;
    fetches 1, 3 and 5 succeed with CREATING; from fetch 7 on the resource
    is READY. *)
Definition flaky : World :=
  world_with (fun k =>
    if (7 <=? k)%nat then (Some ready, None)
    else if Nat.even k then (Some creating, Some unreachable)
    else (Some creating, None)).

(** Fetches 0 and 2 fail, though each still hands over the resource; fetch
    1 succeeds with CREATING; from fetch 3 on the resource is READY. *)
Definition flaky_twice : World :=
  world_with (fun k =>
    if (3 <=? k)%nat then (Some ready, None)
    else if Nat.even k then (Some creating, Some unreachable)
    else (Some creating, None)).

(** ** Sample command lines, for the examples *)

Fixpoint lookup_flag {A} (unset : A) (flags : list (string * A)) (name : string) : A :=
  match flags with
  | [] => unset
  | (n, v) :: flags' => if String.eqb name n then v else lookup_flag unset flags' name
  end.

(** A context from the arguments and the flags given on the command line:
    a string flag that is not given reads as the empty string, an integer
    flag as 0. *)
Definition context_of (args : list string) (strings : list (string * string))
    (ints : list (string * Z)) (globals : list string) : Context := {|
  Args := args;
  String_ := lookup_flag "" strings;
  Int_ := lookup_flag 0 ints;
  IsSet := fun name => existsb (String.eqb name) (map fst strings ++ map fst ints);
  GlobalIsSet := fun name => existsb (String.eqb name) globals
|}.

Definition network_flags : list (string * string) :=
  [("dns", "10.0.0.2"); ("gateway", "10.0.0.1"); ("netmask", "255.255.255.0");
   ("master-ip", "10.0.0.10"); ("container-network", "10.2.0.0/16"); ("etcd1", "10.0.0.11")].

(** [cluster create -n --name demo --type kubernetes ...], no worker count. *)
Definition create_unattended : Context :=
  context_of [] (("name", "demo") :: ("type", "kubernetes") :: network_flags) []
             ["non-interactive"].

(** The same with [--worker_count 5]. *)
Definition create_five_workers : Context :=
  context_of [] (("name", "demo") :: ("type", "kubernetes") :: network_flags)
             [("worker_count", 5)] ["non-interactive"].

(** The same without [--name]. *)
Definition create_nameless : Context :=
  context_of [] (("tenant", "acme") :: ("type", "kubernetes") :: network_flags) []
             ["non-interactive"].

(** [cluster create --tenant acme --type kubernetes ...], with prompts. *)
Definition create_prompted_nameless : Context :=
  context_of [] (("tenant", "acme") :: ("type", "kubernetes") :: network_flags) [] [].

(** [cluster resize -n c1 many] and [cluster resize -n c1 0]. *)
Definition resize_to_many : Context := context_of ["c1"; "many"] [] [] ["non-interactive"].
Definition resize_to_zero : Context := context_of ["c1"; "0"] [] [] ["non-interactive"].

(** [cluster delete -n] and [cluster delete -n c1 c2]. *)
Definition delete_nothing : Context := context_of [] [] [] ["non-interactive"].
Definition delete_two : Context := context_of ["c1"; "c2"] [] [] ["non-interactive"].

(** The create request of [create_unattended] with [n] workers. *)
Definition sample_request (n : Z) : ClusterCreateSpec := {|
  SpecName := "demo";
  SpecType := "KUBERNETES";
  VMFlavor := "";
  DiskFlavor := "";
  NetworkID := "";
  SpecWorkerCount := n;
  BatchSizeWorker := 0;
  ExtendedProperties :=
    <["etcd_ip1" := "10.0.0.11"]>
      (<["container_network" := "10.2.0.0/16"]>
         (<["master_ip" := "10.0.0.10"]>
            (<["netmask" := "255.255.255.0"]>
               (<["gateway" := "10.0.0.1"]> (<["dns" := "10.0.0.2"]> ∅)))))
|}.

(** A world in which the tenant cannot be resolved. *)
Definition tenant_unknown : World := {|
  Clusters_Get := fun _ _ => (Some ready, None);
  lag := fun _ => 0%N;
  client_GetClient := fun _ => None;
  utils_IsNonInteractive := fun c => GlobalIsSet c "non-interactive";
  utils_NeedsFormatting := fun _ => false;
  confirmed := fun _ => true;
  askForInput := fun _ orig => (orig, None);
  verifyTenant := fun _ => (None, Some (Foreign "tenant not found"));
  verifyProject := fun _ _ => (Some (mkProject "project1"), None);
  waitOnTaskOperation := fun _ => None;
  Projects_CreateCluster := fun _ _ => (Some sample_task, None);
  Clusters_Resize := fun _ _ => (Some sample_task, None);
  Clusters_Delete := fun _ => (Some sample_task, None);
  os_Open := fun _ => inr (Foreign "no such file or directory");
  strings_TrimSpace := fun s => s;
  keys := sample_keys
|}.

(** ** Further vocabulary for the waiter *)

Definition is_fetch (e : Event) : bool :=
  match e with
  | EvClustersGet _ _ => true
  | _ => false
  end.

(** The number of fetches in a trace. *)
Definition fetches (t : list Event) : nat := List.length (List.filter is_fetch t).

(** A fetch event asks for the cluster [id]; any other event passes. *)
Definition polls (id : string) (e : Event) : Prop :=
  match e with
  | EvClustersGet _ id' => id' = id
  | _ => True
  end.

(** ** Sample key files, for the examples *)

Definition key_file : File := mkFile "ssh-rsa AAAAB3Nza demo" None None.
Definition key_file_unclosable : File :=
  mkFile "ssh-rsa AAAAB3Nza demo" None (Some (Foreign "close: input/output error")).

(** A world whose file system holds [file] under every name. *)
Definition world_with_file (file : File) : World := {|
  Clusters_Get := fun _ _ => (Some ready, None);
  lag := fun _ => 0%N;
  client_GetClient := fun _ => None;
  utils_IsNonInteractive := fun c => GlobalIsSet c "non-interactive";
  utils_NeedsFormatting := fun _ => false;
  confirmed := fun _ => true;
  askForInput := fun _ orig => (orig, None);
  verifyTenant := fun _ => (Some (mkTenant "tenant1"), None);
  verifyProject := fun _ _ => (Some (mkProject "project1"), None);
  waitOnTaskOperation := fun _ => None;
  Projects_CreateCluster := fun _ _ => (Some sample_task, None);
  Clusters_Resize := fun _ _ => (Some sample_task, None);
  Clusters_Delete := fun _ => (Some sample_task, None);
  os_Open := fun _ => inl file;
  strings_TrimSpace := fun s => s;
  keys := sample_keys
|}.

(** ** What the commands send, and when *)

(** The types that [createCluster] accepts, once in upper case. *)
Definition supported_type (t : string) : bool :=
  String.eqb t "KUBERNETES" || String.eqb t "MESOS" || String.eqb t "SWARM".

(** The path of the key file that [createCluster] holds once the flags are
    parsed and the prompts are answered. *)
Definition entered_ssh_key (w : World) (c : Context) : string :=
  entered w c "Cluster ssh key file path (leave blank for none): " "ssh-key".

(** What holds of every event of [createCluster]: a create request goes out
    only after the confirmation, with a name, a supported type and, if a key
    file was named, a key read without error; the task is awaited only after
    the confirmation; the cluster is polled only on [--wait-for-ready], after
    the task of a create request has finished, and it is the entity of that
    task that is polled; no resize or delete request is ever sent. *)
Definition create_event_ok (w : World) (c : Context) (e : Event) : Prop :=
  match e with
  | EvCreateCluster _ spec =>
    confirmed w (utils_IsNonInteractive w c) = true
    /\ nonempty (SpecName spec) = true
    /\ supported_type (SpecType spec) = true
    /\ (nonempty (entered_ssh_key w c) = true ->
        exists key, snd (readSSHKey w (entered_ssh_key w c)) = Returned (key, None))
  | EvWaitOnTaskOperation _ => confirmed w (utils_IsNonInteractive w c) = true
  | EvGoDisplayTaskProgress | EvClustersGet _ _ | EvSleep _ | EvEndAnimation | EvWgWait =>
    confirmed w (utils_IsNonInteractive w c) = true
    /\ IsSet c "wait-for-ready" = true
    /\ exists projectID spec task,
         Projects_CreateCluster w projectID spec = (Some task, None)
         /\ waitOnTaskOperation w (TaskID task) = None
         /\ polls (EntityID (TaskEntity task)) e
  | EvResize _ _ | EvDelete _ => False
  | _ => True
  end.

(** The same for [resizeCluster]: a resize request goes out only after the
    confirmation, for the cluster named by the first argument, which is not
    empty, with the second argument read as a positive number; the cluster
    is polled only on [--wait-for-ready], and it is the cluster of the first
    argument that is polled. *)
Definition resize_event_ok (w : World) (c : Context) (e : Event) : Prop :=
  match e with
  | EvResize id op =>
    confirmed w (utils_IsNonInteractive w c) = true
    /\ nonempty id = true
    /\ 0 < NewWorkerCount op
    /\ exists count, Args c = [id; count] /\ Atoi count = (NewWorkerCount op, None)
  | EvWaitOnTaskOperation _ => confirmed w (utils_IsNonInteractive w c) = true
  | EvGoDisplayTaskProgress | EvClustersGet _ _ | EvSleep _ | EvEndAnimation | EvWgWait =>
    confirmed w (utils_IsNonInteractive w c) = true
    /\ IsSet c "wait-for-ready" = true
    /\ exists id count, Args c = [id; count] /\ polls id e
  | EvCreateCluster _ _ | EvDelete _ => False
  | _ => True
  end.

(** The same for [deleteCluster]: a delete request goes out only after the
    confirmation, for the one argument, which is not empty; the cluster is
    never polled. *)
Definition delete_event_ok (w : World) (c : Context) (e : Event) : Prop :=
  match e with
  | EvDelete id =>
    confirmed w (utils_IsNonInteractive w c) = true
    /\ nonempty id = true
    /\ Args c = [id]
  | EvWaitOnTaskOperation _ => confirmed w (utils_IsNonInteractive w c) = true
  | EvGoDisplayTaskProgress | EvClustersGet _ _ | EvSleep _ | EvEndAnimation | EvWgWait => False
  | EvCreateCluster _ _ | EvResize _ _ => False
  | _ => True
  end.

(** ** More sample worlds and command lines, for the examples *)

(** A world in which the user declines every confirmation. *)
Definition declining : World := {|
  Clusters_Get := fun _ _ => (Some ready, None);
  lag := fun _ => 0%N;
  client_GetClient := fun _ => None;
  utils_IsNonInteractive := fun c => GlobalIsSet c "non-interactive";
  utils_NeedsFormatting := fun _ => false;
  confirmed := fun _ => false;
  askForInput := fun _ orig => (orig, None);
  verifyTenant := fun _ => (Some (mkTenant "tenant1"), None);
  verifyProject := fun _ _ => (Some (mkProject "project1"), None);
  waitOnTaskOperation := fun _ => None;
  Projects_CreateCluster := fun _ _ => (Some sample_task, None);
  Clusters_Resize := fun _ _ => (Some sample_task, None);
  Clusters_Delete := fun _ => (Some sample_task, None);
  os_Open := fun _ => inr (Foreign "no such file or directory");
  strings_TrimSpace := fun s => s;
  keys := sample_keys
|}.

(** A world without a client: [client.GetClient] fails. *)
Definition no_client : World := {|
  Clusters_Get := fun _ _ => (Some ready, None);
  lag := fun _ => 0%N;
  client_GetClient := fun _ => Some (Foreign "no target set");
  utils_IsNonInteractive := fun c => GlobalIsSet c "non-interactive";
  utils_NeedsFormatting := fun _ => false;
  confirmed := fun _ => true;
  askForInput := fun _ orig => (orig, None);
  verifyTenant := fun _ => (Some (mkTenant "tenant1"), None);
  verifyProject := fun _ _ => (Some (mkProject "project1"), None);
  waitOnTaskOperation := fun _ => None;
  Projects_CreateCluster := fun _ _ => (Some sample_task, None);
  Clusters_Resize := fun _ _ => (Some sample_task, None);
  Clusters_Delete := fun _ => (Some sample_task, None);
  os_Open := fun _ => inr (Foreign "no such file or directory");
  strings_TrimSpace := fun s => s;
  keys := sample_keys
|}.

(** [cluster resize -n c1 5], [cluster resize -n --wait-for-ready c1 5],
    [cluster delete -n c1] and [cluster delete -n ""]. *)
Definition resize_to_five : Context := context_of ["c1"; "5"] [] [] ["non-interactive"].
Definition resize_and_wait : Context :=
  context_of ["c1"; "5"] [("wait-for-ready", "")] [] ["non-interactive"].
Definition delete_one : Context := context_of ["c1"] [] [] ["non-interactive"].
Definition delete_unnamed : Context := context_of [""] [] [] ["non-interactive"].


(** The create request of [create_with_key] when the key file holds
    [key_file]. *)
Definition sample_request_with_key : ClusterCreateSpec := {|
  SpecName := "demo";
  SpecType := "KUBERNETES";
  VMFlavor := "";
  DiskFlavor := "";
  NetworkID := "";
  SpecWorkerCount := 1;
  BatchSizeWorker := 0;
  ExtendedProperties :=
    <["etcd_ip1" := "10.0.0.11"]>
      (<["container_network" := "10.2.0.0/16"]>
         (<["master_ip" := "10.0.0.10"]>
            (<["ssh_key" := "ssh-rsa AAAAB3Nza demo"]>
               (<["netmask" := "255.255.255.0"]>
                  (<["gateway" := "10.0.0.1"]> (<["dns" := "10.0.0.2"]> ∅))))))
|}.

(** The same as [create_unattended] with [--ssh-key id_rsa.pub]. *)
Definition create_with_key : Context :=
  context_of [] (("name", "demo") :: ("type", "kubernetes") :: ("ssh-key", "id_rsa.pub")
                 :: network_flags) [] ["non-interactive"].

(** ** The extended properties of a create request *)

(** The twelve keys, in the order of [PropertyKeys]. *)
Definition key_list (ks : PropertyKeys) : list string :=
  [ExtendedPropertyDNS ks; ExtendedPropertyGateway ks; ExtendedPropertyNetMask ks;
   ExtendedPropertySSHKey ks; ExtendedPropertyMasterIP ks;
   ExtendedPropertyContainerNetwork ks;
   ExtendedPropertyETCDIP1 ks; ExtendedPropertyETCDIP2 ks; ExtendedPropertyETCDIP3 ks;
   ExtendedPropertyZookeeperIP1 ks; ExtendedPropertyZookeeperIP2 ks;
   ExtendedPropertyZookeeperIP3 ks].

(** The map holds the three network settings as entered, and none of the
    keys of [absent]. *)
Definition holds_network_settings (w : World) (c : Context) (absent : list string)
    (m : gmap string string) : Prop :=
  m !! ExtendedPropertyDNS (keys w) = Some (entered w c "Cluster DNS server: " "dns")
  /\ m !! ExtendedPropertyGateway (keys w)
     = Some (entered w c "Cluster network gateway: " "gateway")
  /\ m !! ExtendedPropertyNetMask (keys w)
     = Some (entered w c "Cluster network netmask: " "netmask")
  /\ Forall (fun k => m !! k = None) absent.

(** The keys that a request of the given type never carries. *)
Definition foreign_keys (ks : PropertyKeys) (type : string) : list string :=
  if String.eqb type "KUBERNETES" then
    [ExtendedPropertyZookeeperIP1 ks; ExtendedPropertyZookeeperIP2 ks;
     ExtendedPropertyZookeeperIP3 ks]
  else if String.eqb type "MESOS" then
    [ExtendedPropertyMasterIP ks; ExtendedPropertyContainerNetwork ks;
     ExtendedPropertyETCDIP1 ks; ExtendedPropertyETCDIP2 ks; ExtendedPropertyETCDIP3 ks]
  else
    [ExtendedPropertyMasterIP ks; ExtendedPropertyContainerNetwork ks;
     ExtendedPropertyZookeeperIP1 ks; ExtendedPropertyZookeeperIP2 ks;
     ExtendedPropertyZookeeperIP3 ks].

(** A third server address is there only together with a second one. *)
Definition third_needs_second (ks : PropertyKeys) (m : gmap string string) : Prop :=
  (is_Some (m !! ExtendedPropertyETCDIP3 ks) -> is_Some (m !! ExtendedPropertyETCDIP2 ks))
  /\ (is_Some (m !! ExtendedPropertyZookeeperIP3 ks)
      -> is_Some (m !! ExtendedPropertyZookeeperIP2 ks)).

Definition request_properties_ok (w : World) (c : Context) (e : Event) : Prop :=
  match e with
  | EvCreateCluster _ spec =>
    holds_network_settings w c (foreign_keys (keys w) (SpecType spec)) (ExtendedProperties spec)
    /\ third_needs_second (keys w) (ExtendedProperties spec)
  | _ => True
  end.

(** ** [showCluster]: the choice of the master VMs *)

(** [strings.ToLower], as far as the source uses it: its result is only
    searched for the ASCII word worker.  Go maps each rune to its lower
    case.  The letters A..Z go to a..z; exactly two runes outside ASCII have
    an ASCII lower case, the capital I with a dot (bytes C4 B0, lower case
    i) and the Kelvin sign (bytes E2 84 AA, lower case k); every other rune
    outside ASCII, and every byte that is not valid UTF-8, yields bytes
    outside ASCII.  The model maps the letters and these two runes and
    leaves every other byte as it is, which decides the search for an ASCII
    word as Go does. *)
Definition lower_ascii (a : ascii) : ascii :=
  let n := nat_of_ascii a in
  if (65 <=? n)%nat && (n <=? 90)%nat then ascii_of_nat (n + 32) else a.

Fixpoint ToLower (s : string) : string :=
  match s with
  | EmptyString => EmptyString
  | String a s' =>
    match s' with
    | String b s'' =>
      if is_byte a 196 && is_byte b 176 then String "i"%char (ToLower s'')
      else
        match s'' with
        | String d s''' =>
          if is_byte a 226 && is_byte b 132 && is_byte d 170
          then String "k"%char (ToLower s''')
          else String (lower_ascii a) (ToLower s')
        | EmptyString => String (lower_ascii a) (ToLower s')
        end
    | EmptyString => String (lower_ascii a) EmptyString
    end
  end.

(** [strings.Count(s, sep)] for a separator of one byte. *)
Fixpoint Count (s : string) (sep : ascii) : nat :=
  match s with
  | EmptyString => 0
  | String a s' => ((if Ascii.eqb a sep then 1 else 0) + Count s' sep)%nat
  end.

(** [strings.Contains(s, substr)]. *)
Fixpoint Contains (s substr : string) : bool :=
  String.prefix substr s
  || match s with
     | EmptyString => false
     | String _ s' => Contains s' substr
     end.

(** [photon.VM]: the field that [showCluster] reads, and those that tell
    one VM from another. *)
Record VM : Type := mkVM { VMID : string; VMName : string; Tags : list string }.

(** The condition of line 513 on a tag. *)
Definition is_master_tag (tag : string) : bool :=
  (Count tag ":" =? 2)%nat && negb (Contains (ToLower tag) "worker").

(** The inner loop over [vm.Tags]: the first tag that meets the condition
    appends the VM and breaks. *)
Fixpoint scan_tags (vm : VM) (tags : list string) (master_vms : list VM) : list VM :=
  match tags with
  | [] => master_vms
  | tag :: tags' =>
    if is_master_tag tag then master_vms ++ [vm]
    else scan_tags vm tags' master_vms
  end.

(** The outer loop over [vms.Items], from [var master_vms []photon.VM]. *)
Fixpoint collect_master_vms (items : list VM) (master_vms : list VM) : list VM :=
  match items with
  | [] => master_vms
  | vm :: items' => collect_master_vms items' (scan_tags vm (Tags vm) master_vms)
  end.

Definition master_vms_of (items : list VM) : list VM := collect_master_vms items [].

(** Sample VMs. *)
Definition master_vm : VM := mkVM "vm1" "master-1" ["cluster:3f2a:master-kubernetes"].
Definition worker_vm : VM := mkVM "vm2" "worker-1" ["cluster:3f2a:Worker-kubernetes"; "zone:a"].
Definition plain_vm : VM := mkVM "vm3" "other" [].
Definition relabelled_worker_vm : VM :=
  mkVM "vm4" "worker-2" ["cluster:3f2a:WORKER"; "owner:ops:team"].

(** * Properties of the readiness waiter *)

(** *** One turn of the loop, spelled out *)

Lemma pollLoop_S w id fuel k since numErr cluster err :
  pollLoop w id (S fuel) k since numErr cluster err =
  if since <? taskPollTimeout then
    let g := Clusters_Get w k id in
    if exceeds numErr g then
      ([EvClustersGet k id; EvEndAnimation; EvWgWait], Return (fst g, snd g))
    else
      match fst g with
      | None => ([EvClustersGet k id], Panic nil_dereference)
      | Some c =>
        if String.eqb (ToUpper (State c)) "ERROR" then
          ([EvClustersGet k id; EvEndAnimation; EvWgWait],
           Return (fst g, Some (Errorf (error_state_message id))))
        else if String.eqb (ToUpper (State c)) "READY" then
          ([EvClustersGet k id; EvEndAnimation; EvWgWait], Return (fst g, snd g))
        else
          (EvClustersGet k id :: EvSleep taskPollDelay ::
             fst (pollLoop w id fuel (S k) (next_since w k since)
                           (bump numErr g) (fst g) (snd g)),
           snd (pollLoop w id fuel (S k) (next_since w k since)
                         (bump numErr g) (fst g) (snd g)))
      end
  else ([], Next (cluster, err)).
Proof.
  cbn [pollLoop]. destruct (since <? taskPollTimeout); [|reflexivity].
  unfold exceeds, bump, next_since.
  destruct (Clusters_Get w k id) as [cl e]. cbn [fst snd].
  destruct e as [e|]; cbn [is_nil negb andb].
  - destruct (numErr + 1 >? taskRetryCount); [reflexivity|].
    destruct cl as [c|]; [|reflexivity]. cbn.
    destruct (String.eqb (ToUpper (State c)) "ERROR"); [reflexivity|].
    destruct (String.eqb (ToUpper (State c)) "READY"); [reflexivity|].
    cbn. destruct (pollLoop w id fuel _ _ _ _ _); reflexivity.
  - destruct cl as [c|]; [|reflexivity]. cbn.
    destruct (String.eqb (ToUpper (State c)) "ERROR"); [reflexivity|].
    destruct (String.eqb (ToUpper (State c)) "READY"); [reflexivity|].
    cbn. destruct (pollLoop w id fuel _ _ _ _ _); reflexivity.
Qed.

Lemma waitForCluster_unfold w id :
  waitForCluster w id =
  let p := pollLoop w id poll_fuel 0%nat 0 0 None None in
  match snd p with
  | Next r =>
    (EvGoDisplayTaskProgress :: fst p ++ [EvEndAnimation; EvWgWait],
     Returned (fst r, Some (Errorf timeout_message)))
  | Return r => (EvGoDisplayTaskProgress :: fst p, Returned r)
  | Panic why => (EvGoDisplayTaskProgress :: fst p, Panicked why)
  | NoFuel => (EvGoDisplayTaskProgress :: fst p, OutOfFuel)
  end.
Proof.
  unfold waitForCluster. cbn zeta.
  destruct (pollLoop w id poll_fuel 0%nat 0 0 None None) as [t [r|r|why|]]; reflexivity.
Qed.

(** *** The loop always comes to an end *)

Lemma poll_fuel_value : poll_fuel = 1801%nat.
Proof. reflexivity. Qed.

Ltac constants :=
  unfold taskPollTimeout, taskPollDelay, taskRetryCount, Minute, Second, Nanosecond in *.

Lemma next_since_grows w k since : since + taskPollDelay <= next_since w k since.
Proof. unfold next_since. lia. Qed.

Lemma pollLoop_fuel_enough w id fuel :
  forall k since numErr cluster err,
    (0 < fuel)%nat ->
    taskPollTimeout - since <= (Z.of_nat fuel - 1) * taskPollDelay ->
    snd (pollLoop w id fuel k since numErr cluster err) <> NoFuel.
Proof.
  induction fuel as [|fuel IH]; intros k since numErr cluster err Hpos Hfuel; [lia|].
  rewrite pollLoop_S.
  destruct (since <? taskPollTimeout) eqn:Hlt; [|discriminate].
  apply Z.ltb_lt in Hlt. cbn zeta.
  destruct (exceeds numErr _); [discriminate|].
  destruct (fst (Clusters_Get w k id)) as [c|]; [|discriminate].
  destruct (String.eqb (ToUpper (State c)) "ERROR"); [discriminate|].
  destruct (String.eqb (ToUpper (State c)) "READY"); [discriminate|].
  cbn [snd]. pose proof (next_since_grows w k since) as Hgrow.
  apply IH; constants; lia.
Qed.

(** [waitForCluster] is total: whatever the fetches answer and however long
    they take, the model never runs out of fuel, so the wait either returns
    or panics. *)
Lemma waitForCluster_total w id : snd (waitForCluster w id) <> OutOfFuel.
Proof.
  rewrite waitForCluster_unfold. cbn zeta.
  pose proof (pollLoop_fuel_enough w id poll_fuel 0%nat 0 0 None None) as H.
  destruct (snd (pollLoop w id poll_fuel 0%nat 0 0 None None)); try discriminate.
  exfalso. apply H; [rewrite poll_fuel_value; lia| rewrite poll_fuel_value; constants; lia | reflexivity].
Qed.

(** *** The progress reporter on the exit paths *)

Lemma leaves_reporter_alone_nil : leaves_reporter_alone [].
Proof. unfold leaves_reporter_alone; cbn; tauto. Qed.

Lemma leaves_reporter_alone_get k id t :
  leaves_reporter_alone t -> leaves_reporter_alone (EvClustersGet k id :: t).
Proof.
  unfold leaves_reporter_alone; cbn. intros (H1 & H2 & H3).
  repeat split; intros [H|H]; try discriminate; tauto.
Qed.

Lemma leaves_reporter_alone_sleep d t :
  leaves_reporter_alone t -> leaves_reporter_alone (EvSleep d :: t).
Proof.
  unfold leaves_reporter_alone; cbn. intros (H1 & H2 & H3).
  repeat split; intros [H|H]; try discriminate; tauto.
Qed.

(** On a [return] inside the loop the trace ends with the stop signal and
    the join, and nothing before them touches the reporter; on every other
    way out of the loop nothing touches it at all. *)
Lemma pollLoop_reporter w id fuel :
  forall k since numErr cluster err,
    match snd (pollLoop w id fuel k since numErr cluster err) with
    | Return _ =>
      exists pre, fst (pollLoop w id fuel k since numErr cluster err)
                  = pre ++ [EvEndAnimation; EvWgWait]
                  /\ leaves_reporter_alone pre
    | _ => leaves_reporter_alone (fst (pollLoop w id fuel k since numErr cluster err))
    end.
Proof.
  induction fuel as [|fuel IH]; intros k since numErr cluster err.
  { cbn. apply leaves_reporter_alone_nil. }
  rewrite pollLoop_S.
  destruct (since <? taskPollTimeout); [|apply leaves_reporter_alone_nil].
  cbn zeta.
  assert (Hone : exists pre, [EvClustersGet k id; EvEndAnimation; EvWgWait]
                             = pre ++ [EvEndAnimation; EvWgWait]
                             /\ leaves_reporter_alone pre).
  { exists [EvClustersGet k id]. split; [reflexivity|].
    apply leaves_reporter_alone_get, leaves_reporter_alone_nil. }
  destruct (exceeds numErr _); [exact Hone|].
  destruct (fst (Clusters_Get w k id)) as [c|];
    [|apply leaves_reporter_alone_get, leaves_reporter_alone_nil].
  destruct (String.eqb (ToUpper (State c)) "ERROR"); [exact Hone|].
  destruct (String.eqb (ToUpper (State c)) "READY"); [exact Hone|].
  cbn [fst snd].
  specialize (IH (S k) (next_since w k since) (bump numErr (Clusters_Get w k id))
                 (Some c) (snd (Clusters_Get w k id))).
  destruct (snd (pollLoop w id fuel _ _ _ _ _)).
  - now apply leaves_reporter_alone_get, leaves_reporter_alone_sleep.
  - destruct IH as (pre & -> & Hpre).
    exists (EvClustersGet k id :: EvSleep taskPollDelay :: pre). split; [reflexivity|].
    now apply leaves_reporter_alone_get, leaves_reporter_alone_sleep.
  - now apply leaves_reporter_alone_get, leaves_reporter_alone_sleep.
  - now apply leaves_reporter_alone_get, leaves_reporter_alone_sleep.
Qed.

(** C4.  Whenever [waitForCluster] returns to its caller, on whichever of
    its return statements (READY, the ERROR state, the retry budget
    exceeded, the timeout), the reporter was started once, at the very
    beginning, and the last two things the waiter did are to set
    [endAnimation] and to join the reporter with [wg.Wait]: the stop signal
    is set exactly once, the join follows it, and nothing in between or
    before touches the reporter. *)
Theorem waitForCluster_stops_reporter_once (w : World) (id : string) (r : WaitResult) :
  snd (waitForCluster w id) = Returned r ->
  exists pre,
    fst (waitForCluster w id)
    = EvGoDisplayTaskProgress :: pre ++ [EvEndAnimation; EvWgWait]
    /\ leaves_reporter_alone pre.
Proof.
  rewrite waitForCluster_unfold. cbn zeta.
  pose proof (pollLoop_reporter w id poll_fuel 0%nat 0 0 None None) as H.
  destruct (snd (pollLoop w id poll_fuel 0%nat 0 0 None None)) as [r'|r'|why|];
    cbn [fst snd]; intros Hret; try discriminate.
  - exists (fst (pollLoop w id poll_fuel 0%nat 0 0 None None)). split; [reflexivity|exact H].
  - destruct H as (pre & -> & Hpre). exists pre. split; [reflexivity|exact Hpre].
Qed.

(** *** Terminal states *)

Lemma get_event_inv k k0 id pre :
  k <> k0 ->
  In (EvClustersGet k id) (EvClustersGet k0 id :: pre) -> In (EvClustersGet k id) pre.
Proof. intros Hne [H|H]; [injection H; intros; subst; contradiction | exact H]. Qed.

Lemma not_among_last k id k0 :
  k <> k0 -> ~ In (EvClustersGet k id) [EvClustersGet k0 id; EvEndAnimation; EvWgWait].
Proof.
  intros Hne H. apply get_event_inv in H; [|exact Hne].
  destruct H as [H|[H|[]]]; discriminate.
Qed.

(** If the loop performs fetch [k] and that fetch answers [(c, nil)] with
    [c] in a terminal state, the loop returns right after that fetch. *)
Lemma pollLoop_terminal w id k c (Hget : Clusters_Get w k id = (Some c, None))
    (Hterm : is_terminal c = true) fuel :
  forall k0 since numErr cluster err,
    In (EvClustersGet k id) (fst (pollLoop w id fuel k0 since numErr cluster err)) ->
    (exists pre, fst (pollLoop w id fuel k0 since numErr cluster err)
                 = pre ++ [EvClustersGet k id; EvEndAnimation; EvWgWait])
    /\ snd (pollLoop w id fuel k0 since numErr cluster err)
       = Return (Some c,
                 if String.eqb (ToUpper (State c)) "ERROR"
                 then Some (Errorf (error_state_message id)) else None).
Proof.
  induction fuel as [|fuel IH]; intros k0 since numErr cluster err; [intros []|].
  rewrite pollLoop_S.
  destruct (since <? taskPollTimeout); [|intros []].
  cbn zeta. destruct (Nat.eq_dec k k0) as [->|Hne].
  - intros _. rewrite Hget. unfold exceeds. cbn [fst snd is_nil negb andb].
    unfold is_terminal in Hterm.
    destruct (String.eqb (ToUpper (State c)) "ERROR").
    + split; [exists []; reflexivity | reflexivity].
    + cbn [orb] in Hterm. rewrite Hterm.
      split; [exists []; reflexivity | reflexivity].
  - destruct (exceeds numErr _).
    { intros H. now apply not_among_last in H. }
    destruct (fst (Clusters_Get w k0 id)) as [c0|].
    2:{ intros [H|[]]. injection H; intros; subst; contradiction. }
    destruct (String.eqb (ToUpper (State c0)) "ERROR").
    { intros H. now apply not_among_last in H. }
    destruct (String.eqb (ToUpper (State c0)) "READY").
    { intros H. now apply not_among_last in H. }
    cbn [fst snd]. intros H. apply get_event_inv in H; [|exact Hne].
    destruct H as [H|H]; [discriminate|].
    destruct (IH _ _ _ _ _ H) as [(pre & Hpre) Hres]. split; [|exact Hres].
    exists (EvClustersGet k0 id :: EvSleep taskPollDelay :: pre). now rewrite Hpre.
Qed.

Lemma waitForCluster_terminal w id k c :
  Clusters_Get w k id = (Some c, None) ->
  is_terminal c = true ->
  In (EvClustersGet k id) (fst (waitForCluster w id)) ->
  (exists pre, fst (waitForCluster w id)
               = pre ++ [EvClustersGet k id; EvEndAnimation; EvWgWait])
  /\ snd (waitForCluster w id)
     = Returned (Some c,
                 if String.eqb (ToUpper (State c)) "ERROR"
                 then Some (Errorf (error_state_message id)) else None).
Proof.
  intros Hget Hterm. rewrite waitForCluster_unfold. cbn zeta.
  pose proof (pollLoop_terminal w id k c Hget Hterm poll_fuel 0%nat 0 0 None None) as H.
  intros Hin.
  assert (Hin' : In (EvClustersGet k id) (fst (pollLoop w id poll_fuel 0%nat 0 0 None None))).
  { destruct (snd (pollLoop w id poll_fuel 0%nat 0 0 None None)); cbn [fst] in Hin;
      destruct Hin as [Hin|Hin]; try discriminate; try exact Hin.
    apply in_app_or in Hin. destruct Hin as [Hin|[Hin|[Hin|[]]]];
      [exact Hin|discriminate|discriminate]. }
  destruct (H Hin') as [(pre & Hpre) Hres]. rewrite Hres. cbn [fst snd].
  split; [|reflexivity]. exists (EvGoDisplayTaskProgress :: pre). now rewrite Hpre.
Qed.

(** C5.  If the wait makes a fetch that succeeds with a resource whose
    state is READY in any letter case, it returns that very resource with a
    nil error, and the trace ends with that fetch, the stop signal and the
    join: no sleep and no other fetch comes after it. *)
Theorem waitForCluster_returns_on_ready (w : World) (id : string) (k : nat) (c : Cluster) :
  In (EvClustersGet k id) (fst (waitForCluster w id)) ->
  Clusters_Get w k id = (Some c, None) ->
  ToUpper (State c) = "READY" ->
  snd (waitForCluster w id) = Returned (Some c, None)
  /\ exists pre, fst (waitForCluster w id)
                 = pre ++ [EvClustersGet k id; EvEndAnimation; EvWgWait].
Proof.
  intros Hin Hget Hready.
  assert (Hterm : is_terminal c = true).
  { unfold is_terminal. rewrite Hready. reflexivity. }
  destruct (waitForCluster_terminal w id k c Hget Hterm Hin) as [Hpre Hres].
  rewrite Hready in Hres. split; [exact Hres | exact Hpre].
Qed.

(** C6.  If the wait makes a fetch that succeeds with a resource whose
    state is ERROR in any letter case, it returns at once with the error
    [Cluster <id> entered ERROR state], which names the resource and the
    state, and the trace ends with that fetch, the stop signal and the join:
    no further fetch and no sleep. *)
Theorem waitForCluster_returns_on_error_state (w : World) (id : string) (k : nat) (c : Cluster) :
  In (EvClustersGet k id) (fst (waitForCluster w id)) ->
  Clusters_Get w k id = (Some c, None) ->
  ToUpper (State c) = "ERROR" ->
  snd (waitForCluster w id)
  = Returned (Some c, Some (Errorf ("Cluster " +:+ id +:+ " entered ERROR state")))
  /\ exists pre, fst (waitForCluster w id)
                 = pre ++ [EvClustersGet k id; EvEndAnimation; EvWgWait].
Proof.
  intros Hin Hget Herror.
  assert (Hterm : is_terminal c = true).
  { unfold is_terminal. rewrite Herror. reflexivity. }
  destruct (waitForCluster_terminal w id k c Hget Hterm Hin) as [Hpre Hres].
  rewrite Herror in Hres. split; [exact Hres | exact Hpre].
Qed.

(** *** A failed fetch that hands over no resource *)

Lemma waitForCluster_first_fetch_nil w id e :
  Clusters_Get w 0%nat id = (None, Some e) ->
  waitForCluster w id
  = ([EvGoDisplayTaskProgress; EvClustersGet 0 id], Panicked nil_dereference).
Proof.
  intros Hget. rewrite waitForCluster_unfold, poll_fuel_value, pollLoop_S.
  replace (0 <? taskPollTimeout) with true by reflexivity.
  cbn zeta. rewrite Hget. reflexivity.
Qed.

(** C1.  When the first fetch fails and hands over no resource, the failure
    count is 1, within the budget of 3, and the loop goes on to read
    [cluster.State] through the nil handle: the wait panics with a nil
    pointer dereference right after that fetch. *)
Theorem waitForCluster_dereferences_nil_after_failed_fetch (w : World) (id : string) (e : error) :
  Clusters_Get w 0%nat id = (None, Some e) ->
  exceeds 0 (Clusters_Get w 0%nat id) = false
  /\ waitForCluster w id
     = ([EvGoDisplayTaskProgress; EvClustersGet 0 id], Panicked nil_dereference).
Proof.
  intros Hget. split; [rewrite Hget; reflexivity|].
  now apply waitForCluster_first_fetch_nil with e.
Qed.

(** C3.  When the first four fetches all fail and hand over no resource,
    the wait never reaches the fourth of them: it makes one fetch and
    panics, so it returns no error to its caller. *)
Theorem waitForCluster_four_failures_panic (w : World) (id : string) :
  (forall j, (j < 4)%nat -> exists e, Clusters_Get w j id = (None, Some e)) ->
  fst (waitForCluster w id) = [EvGoDisplayTaskProgress; EvClustersGet 0 id]
  /\ snd (waitForCluster w id) = Panicked nil_dereference
  /\ forall r, snd (waitForCluster w id) <> Returned r.
Proof.
  intros Hfail. destruct (Hfail 0%nat ltac:(lia)) as [e He].
  rewrite (waitForCluster_first_fetch_nil w id e He). cbn [fst snd].
  repeat split. intros r. discriminate.
Qed.

(** C7.  When the first fetch fails and hands over no resource, and every
    later fetch succeeds with a resource in no terminal state, no terminal
    state is ever observed and there is one failure in all, yet the wait
    does not return the timeout error: it panics at the first fetch. *)
Theorem waitForCluster_panics_before_timeout (w : World) (id : string) (e : error) :
  Clusters_Get w 0%nat id = (None, Some e) ->
  (forall j, (0 < j)%nat ->
     failed (Clusters_Get w j id) = false /\ in_progress (Clusters_Get w j id) = true) ->
  (forall n, failures w id 0 n <= taskRetryCount)
  /\ snd (waitForCluster w id) = Panicked nil_dereference
  /\ forall c, snd (waitForCluster w id) <> Returned (c, Some (Errorf timeout_message)).
Proof.
  intros Hget Hlater. split.
  - assert (Hzero : forall n k, (0 < k)%nat -> failures w id k n = 0).
    { induction n as [|n IH]; intros k Hk; [reflexivity|].
      cbn [failures]. destruct (Hlater k Hk) as [-> _]. rewrite IH by lia. reflexivity. }
    intros [|n]; cbn [failures]; [constants; lia|].
    rewrite Hzero by lia. rewrite Hget. cbn. constants. lia.
  - rewrite (waitForCluster_first_fetch_nil w id e Hget). cbn [snd].
    split; [reflexivity|]. intros c. discriminate.
Qed.

(** *** Runs in which every fetch hands over a resource *)

Lemma failures_nonneg w id n : forall k, 0 <= failures w id k n.
Proof.
  induction n as [|n IH]; intros k; cbn [failures]; [lia|].
  specialize (IH (S k)). destruct (failed _); lia.
Qed.

Lemma spent_lower w n : forall k, Z.of_nat n * taskPollDelay <= spent w k n.
Proof.
  induction n as [|n IH]; intros k; cbn [spent]; [lia|].
  specialize (IH (S k)). lia.
Qed.

Lemma spent_nonneg w k n : 0 <= spent w k n.
Proof. pose proof (spent_lower w n k). constants. lia. Qed.

Lemma bump_failed numErr g :
  bump numErr g = numErr + (if failed g then 1 else 0).
Proof. unfold bump, failed. destruct (is_nil (snd g)); cbn; lia. Qed.

(** A turn that goes round again. *)
Lemma pollLoop_again w id fuel k since numErr cluster err :
  since < taskPollTimeout ->
  in_progress (Clusters_Get w k id) = true ->
  bump numErr (Clusters_Get w k id) <= taskRetryCount ->
  snd (pollLoop w id (S fuel) k since numErr cluster err)
  = snd (pollLoop w id fuel (S k) (next_since w k since)
                  (bump numErr (Clusters_Get w k id))
                  (fst (Clusters_Get w k id)) (snd (Clusters_Get w k id))).
Proof.
  intros Hlt Hprog Hbudget. rewrite pollLoop_S.
  apply Z.ltb_lt in Hlt. rewrite Hlt. cbn zeta.
  unfold exceeds. replace (bump numErr _ >? taskRetryCount) with false by (symmetry; lia).
  rewrite andb_false_r.
  unfold in_progress, is_terminal in Hprog.
  destruct (fst (Clusters_Get w k id)) as [c|]; [|discriminate].
  apply negb_true_iff, orb_false_iff in Hprog. destruct Hprog as [-> ->]. reflexivity.
Qed.

(** [n] turns that all go round again: the loop is then at fetch [k + n],
    [spent w k n] later, with [failures w id k n] more failures counted. *)
Lemma pollLoop_runs_to w id n :
  forall fuel k since numErr cluster err,
    (0 < fuel)%nat ->
    taskPollTimeout - since <= (Z.of_nat fuel - 1) * taskPollDelay ->
    (forall j, (k <= j < k + n)%nat -> in_progress (Clusters_Get w j id) = true) ->
    numErr + failures w id k n <= taskRetryCount ->
    since + spent w k n < taskPollTimeout ->
    exists fuel' cluster' err',
      (0 < fuel')%nat
      /\ taskPollTimeout - (since + spent w k n) <= (Z.of_nat fuel' - 1) * taskPollDelay
      /\ snd (pollLoop w id fuel k since numErr cluster err)
         = snd (pollLoop w id fuel' (k + n) (since + spent w k n)
                         (numErr + failures w id k n) cluster' err').
Proof.
  induction n as [|n IH]; intros fuel k since numErr cluster err Hpos Hfuel Hprog Hbudget Htime.
  - exists fuel, cluster, err. cbn [failures spent] in *.
    rewrite !Z.add_0_r, Nat.add_0_r. auto.
  - cbn [failures spent] in *.
    pose proof (failures_nonneg w id n (S k)) as Hf.
    pose proof (spent_nonneg w (S k) n) as Hs.
    destruct fuel as [|fuel]; [lia|].
    rewrite pollLoop_again.
    2:{ constants. lia. }
    2:{ apply Hprog. lia. }
    2:{ rewrite bump_failed. destruct (failed _); lia. }
    destruct (IH fuel (S k) (next_since w k since) (bump numErr (Clusters_Get w k id))
                 (fst (Clusters_Get w k id)) (snd (Clusters_Get w k id)))
      as (fuel' & cluster' & err' & Hpos' & Hfuel' & Heq).
    + constants. lia.
    + unfold next_since. constants. lia.
    + intros j Hj. apply Hprog. lia.
    + rewrite bump_failed. lia.
    + unfold next_since. lia.
    + exists fuel', cluster', err'. split; [exact Hpos'|].
      replace (since + (taskPollDelay + Z.of_N (lag w k) + spent w (S k) n))
        with (next_since w k since + spent w (S k) n) by (unfold next_since; lia).
      split; [exact Hfuel'|]. rewrite Heq. f_equal. f_equal.
      * lia.
      * rewrite bump_failed. lia.
Qed.

(** The loop runs into the timeout when every fetch hands over a resource
    in no terminal state and at most three of them fail. *)
Lemma pollLoop_times_out w id fuel :
  forall k since numErr cluster err,
    (0 < fuel)%nat ->
    taskPollTimeout - since <= (Z.of_nat fuel - 1) * taskPollDelay ->
    (forall j, (k <= j)%nat -> in_progress (Clusters_Get w j id) = true) ->
    (forall n, numErr + failures w id k n <= taskRetryCount) ->
    exists r, snd (pollLoop w id fuel k since numErr cluster err) = Next r.
Proof.
  induction fuel as [|fuel IH]; intros k since numErr cluster err Hpos Hfuel Hprog Hbudget; [lia|].
  destruct (Z.lt_ge_cases since taskPollTimeout) as [Hlt|Hge].
  - rewrite pollLoop_again; [|exact Hlt | apply Hprog; lia |].
    2:{ specialize (Hbudget 1%nat). cbn [failures] in Hbudget. rewrite bump_failed. lia. }
    apply IH.
    + constants. lia.
    + unfold next_since. constants. lia.
    + intros j Hj. apply Hprog. lia.
    + intros n. specialize (Hbudget (S n)). cbn [failures] in Hbudget.
      rewrite bump_failed. lia.
  - rewrite pollLoop_S. replace (since <? taskPollTimeout) with false by (symmetry; lia).
    now exists (cluster, err).
Qed.

(** The timeout path: when every fetch hands over a resource in no terminal
    state and at most three fetches fail, the wait returns the timeout
    error. *)
Lemma waitForCluster_times_out w id :
  (forall j, in_progress (Clusters_Get w j id) = true) ->
  (forall n, failures w id 0 n <= taskRetryCount) ->
  exists c, snd (waitForCluster w id) = Returned (c, Some (Errorf timeout_message)).
Proof.
  intros Hprog Hbudget. rewrite waitForCluster_unfold. cbn zeta.
  destruct (pollLoop_times_out w id poll_fuel 0%nat 0 0 None None) as [r Hr].
  - rewrite poll_fuel_value. lia.
  - rewrite poll_fuel_value. constants. lia.
  - intros j _. apply Hprog.
  - intros n. specialize (Hbudget n). lia.
  - rewrite Hr. now exists (fst r).
Qed.

(** *** The retry budget *)

Lemma waitForCluster_runs_to w id r :
  (forall j, (j < r)%nat -> in_progress (Clusters_Get w j id) = true) ->
  failures w id 0 r <= taskRetryCount ->
  spent w 0 r < taskPollTimeout ->
  exists fuel cluster err,
    snd (pollLoop w id poll_fuel 0%nat 0 0 None None)
    = snd (pollLoop w id (S fuel) r (spent w 0 r) (failures w id 0 r) cluster err).
Proof.
  intros Hprog Hbudget Htime.
  destruct (pollLoop_runs_to w id r poll_fuel 0%nat 0 0 None None)
    as (fuel & cluster & err & Hpos & _ & Heq).
  - rewrite poll_fuel_value. lia.
  - rewrite poll_fuel_value. constants. lia.
  - intros j Hj. apply Hprog. lia.
  - lia.
  - lia.
  - destruct fuel as [|fuel]; [lia|]. exists fuel, cluster, err.
    rewrite Heq. cbn [Nat.add]. rewrite !Z.add_0_l. reflexivity.
Qed.

(** C2, as the code has it.  Let fetch [r] be reached before the timeout,
    every fetch before it having handed over a resource in no terminal
    state, with at most three failed fetches among them, counted in total
    and wherever they lie.  If fetch [r] succeeds with a READY resource, the
    wait returns that resource and a nil error.  The count is never reset:
    if exactly three fetches before [r] failed and fetch [r] fails too, the
    wait gives up and returns the error of fetch [r], whatever successes lie
    between the failures. *)
Theorem waitForCluster_budget_counts_all_failures (w : World) (id : string) (r : nat) :
  (forall j, (j < r)%nat -> in_progress (Clusters_Get w j id) = true) ->
  failures w id 0 r <= taskRetryCount ->
  spent w 0 r < taskPollTimeout ->
  (forall c, Clusters_Get w r id = (Some c, None) ->
             ToUpper (State c) = "READY" ->
             snd (waitForCluster w id) = Returned (Some c, None))
  /\ (forall cluster e, Clusters_Get w r id = (cluster, Some e) ->
                        failures w id 0 r = taskRetryCount ->
                        snd (waitForCluster w id) = Returned (cluster, Some e)).
Proof.
  intros Hprog Hbudget Htime.
  destruct (waitForCluster_runs_to w id r Hprog Hbudget Htime) as (fuel & cl & err & Heq).
  apply Z.ltb_lt in Htime.
  split.
  - intros c Hget Hready. rewrite waitForCluster_unfold. cbn zeta.
    rewrite Heq, pollLoop_S, Htime. cbn zeta. rewrite Hget.
    unfold exceeds. cbn [fst snd is_nil negb andb]. rewrite Hready. reflexivity.
  - intros cluster e Hget Hthree. rewrite waitForCluster_unfold. cbn zeta.
    rewrite Heq, pollLoop_S, Htime. cbn zeta. rewrite Hget, Hthree.
    reflexivity.
Qed.

(** *** The waiter on the sample worlds *)

Example ToUpper_ready : ToUpper "ready" = "READY" /\ ToUpper "Ready" = "READY".
Proof. split; reflexivity. Qed.

Example becomes_ready_run :
  waitForCluster becomes_ready "c1"
  = ([EvGoDisplayTaskProgress;
      EvClustersGet 0 "c1"; EvSleep taskPollDelay;
      EvClustersGet 1 "c1"; EvSleep taskPollDelay;
      EvClustersGet 2 "c1"; EvEndAnimation; EvWgWait],
     Returned (Some ready, None)).
Proof. vm_compute. reflexivity. Qed.

Example becomes_broken_run :
  waitForCluster becomes_broken "c1"
  = ([EvGoDisplayTaskProgress;
      EvClustersGet 0 "c1"; EvSleep taskPollDelay;
      EvClustersGet 1 "c1"; EvEndAnimation; EvWgWait],
     Returned (Some broken, Some (Errorf "Cluster c1 entered ERROR state"))).
Proof. vm_compute. reflexivity. Qed.

(** CREATING for ever: 1800 fetches two seconds apart, then the timeout. *)
Example never_ready_run :
  snd (waitForCluster never_ready "c1")
  = Returned (Some creating, Some (Errorf timeout_message))
  /\ List.length (fst (waitForCluster never_ready "c1")) = (1 + 2 * 1800 + 2)%nat.
Proof. vm_compute. split; reflexivity. Qed.

Lemma waitForCluster_dereferences_nil_after_failed_fetch_witness :
  exceeds 0 (Clusters_Get fails_first 0%nat "c1") = false
  /\ waitForCluster fails_first "c1"
     = ([EvGoDisplayTaskProgress; EvClustersGet 0 "c1"], Panicked nil_dereference).
Proof.
  apply (waitForCluster_dereferences_nil_after_failed_fetch fails_first "c1" unreachable).
  reflexivity.
Defined.

Lemma waitForCluster_four_failures_panic_witness :
  fst (waitForCluster always_fails "c1") = [EvGoDisplayTaskProgress; EvClustersGet 0 "c1"]
  /\ snd (waitForCluster always_fails "c1") = Panicked nil_dereference
  /\ forall r, snd (waitForCluster always_fails "c1") <> Returned r.
Proof.
  apply (waitForCluster_four_failures_panic always_fails "c1").
  intros j _. exists unreachable. reflexivity.
Defined.

Lemma waitForCluster_panics_before_timeout_witness :
  (forall n, failures fails_first "c1" 0 n <= taskRetryCount)
  /\ snd (waitForCluster fails_first "c1") = Panicked nil_dereference
  /\ forall c, snd (waitForCluster fails_first "c1") <> Returned (c, Some (Errorf timeout_message)).
Proof.
  apply (waitForCluster_panics_before_timeout fails_first "c1" unreachable).
  - reflexivity.
  - intros [|j] Hj; [lia|]. split; reflexivity.
Defined.

Lemma waitForCluster_stops_reporter_once_witness :
  exists pre,
    fst (waitForCluster becomes_ready "c1")
    = EvGoDisplayTaskProgress :: pre ++ [EvEndAnimation; EvWgWait]
    /\ leaves_reporter_alone pre.
Proof.
  apply (waitForCluster_stops_reporter_once becomes_ready "c1" (Some ready, None)).
  vm_compute. reflexivity.
Defined.

Lemma waitForCluster_returns_on_ready_witness :
  snd (waitForCluster becomes_ready "c1") = Returned (Some ready, None)
  /\ exists pre, fst (waitForCluster becomes_ready "c1")
                 = pre ++ [EvClustersGet 2 "c1"; EvEndAnimation; EvWgWait].
Proof.
  apply (waitForCluster_returns_on_ready becomes_ready "c1" 2 ready).
  - rewrite becomes_ready_run. cbn. tauto.
  - reflexivity.
  - reflexivity.
Defined.

Lemma waitForCluster_returns_on_error_state_witness :
  snd (waitForCluster becomes_broken "c1")
  = Returned (Some broken, Some (Errorf ("Cluster " +:+ "c1" +:+ " entered ERROR state")))
  /\ exists pre, fst (waitForCluster becomes_broken "c1")
                 = pre ++ [EvClustersGet 1 "c1"; EvEndAnimation; EvWgWait].
Proof.
  apply (waitForCluster_returns_on_error_state becomes_broken "c1" 1 broken).
  - rewrite becomes_broken_run. cbn. tauto.
  - reflexivity.
  - reflexivity.
Defined.

Lemma waitForCluster_budget_counts_all_failures_witness :
  (forall c, Clusters_Get flaky_twice 3%nat "c1" = (Some c, None) ->
             ToUpper (State c) = "READY" ->
             snd (waitForCluster flaky_twice "c1") = Returned (Some c, None))
  /\ (forall cluster e, Clusters_Get flaky_twice 3%nat "c1" = (cluster, Some e) ->
                        failures flaky_twice "c1" 0 3 = taskRetryCount ->
                        snd (waitForCluster flaky_twice "c1") = Returned (cluster, Some e)).
Proof.
  apply (waitForCluster_budget_counts_all_failures flaky_twice "c1" 3).
  - intros [|[|[|j]]] Hj; [reflexivity | reflexivity | reflexivity | lia].
  - vm_compute. discriminate.
  - vm_compute. reflexivity.
Defined.

(** C2, as stated, fails on [flaky]: no two failed fetches are adjacent,
    so the longest run of consecutive failures has length 1, and fetch 7,
    fourteen seconds into the wait, would succeed with a READY resource; but
    fetch 6 is the fourth failure in all, and the wait returns its error. *)
Lemma consecutive_budget_counterexample :
  (longest_failure_run flaky "c1" 7 <= 3)%nat
  /\ Clusters_Get flaky 7%nat "c1" = (Some ready, None)
  /\ ToUpper (State ready) = "READY"
  /\ spent flaky 0 7 < taskPollTimeout
  /\ snd (waitForCluster flaky "c1") = Returned (Some creating, Some unreachable)
  /\ snd (waitForCluster flaky "c1") <> Returned (Some ready, None).
Proof.
  assert (Hrun : snd (waitForCluster flaky "c1") = Returned (Some creating, Some unreachable))
    by (vm_compute; reflexivity).
  split; [vm_compute; lia|].
  split; [reflexivity|].
  split; [reflexivity|].
  split; [vm_compute; reflexivity|].
  split; [exact Hrun|].
  rewrite Hrun. discriminate.
Qed.

(** * Properties of the commands *)

(** *** Rules for [ensures] *)

Section Rules.
Context {R : Type} (P : Event -> Prop).

Lemma ensures_pure {A} (a : A) (Q : A -> Prop) : Q a -> ensures (R:=R) (pure a) P Q.
Proof. intros HQ. split; [constructor|]. intros a' [= <-]. exact HQ. Qed.

Lemma ensures_return {A} (r : R) (Q : A -> Prop) : ensures (return_ r) P Q.
Proof. split; [constructor|]. intros a'. discriminate. Qed.

Lemma ensures_panic {A} why (Q : A -> Prop) : ensures (R:=R) (panic why) P Q.
Proof. split; [constructor|]. intros a'. discriminate. Qed.

Lemma ensures_emit e (Q : unit -> Prop) : P e -> Q tt -> ensures (R:=R) (emit e) P Q.
Proof. intros He HQ. split; [repeat constructor; exact He|]. intros [] _. exact HQ. Qed.

Lemma ensures_bind {A B} (m : Body R A) (f : A -> Body R B) (Q : A -> Prop) (Q' : B -> Prop) :
  ensures m P Q -> (forall a, Q a -> ensures (f a) P Q') -> ensures (bind m f) P Q'.
Proof.
  intros [Hm HQ] Hf. destruct m as [t [a|r|why|]]; cbn [bind fst snd] in *.
  - specialize (Hf a (HQ a eq_refl)). destruct (f a) as [t' s]. destruct Hf as [Hf1 Hf2].
    cbn [fst snd] in *. split; [apply Forall_app; split; assumption | exact Hf2].
  - split; [exact Hm|]. intros b. discriminate.
  - split; [exact Hm|]. intros b. discriminate.
  - split; [exact Hm|]. intros b. discriminate.
Qed.

Lemma ensures_weaken {A} (m : Body R A) (Q Q' : A -> Prop) :
  ensures m P Q -> (forall a, Q a -> Q' a) -> ensures m P Q'.
Proof. intros [Hm HQ] Himp. split; [exact Hm|]. intros a Ha. apply Himp, HQ, Ha. Qed.

(** [emit e ;;; k] *)
Lemma ensures_emit_then {B} e (k : Body R B) (Q : B -> Prop) :
  P e -> ensures k P Q -> ensures (emit e ;;; k) P Q.
Proof.
  intros He Hk. apply ensures_bind with (Q := fun _ => True); [|intros _ _; exact Hk].
  now apply ensures_emit.
Qed.

(** [if cond { return r }; k]: [k] runs only when [cond] is false. *)
Lemma ensures_guard_then {B} (cond : bool) (r : R) (k : Body R B) (Q : B -> Prop) :
  (cond = false -> ensures k P Q) -> ensures (when cond (return_ r) ;;; k) P Q.
Proof.
  intros Hk. destruct cond; cbn [when].
  - apply ensures_bind with (Q := fun _ => False); [apply ensures_return | intros _ []].
  - apply ensures_bind with (Q := fun _ => True); [now apply ensures_pure | intros _ _; now apply Hk].
Qed.

(** [if cond { emit e }; k] *)
Lemma ensures_when_emit_then {B} (cond : bool) e (k : Body R B) (Q : B -> Prop) :
  P e -> ensures k P Q -> ensures (when cond (emit e) ;;; k) P Q.
Proof.
  intros He Hk. apply ensures_bind with (Q := fun _ => True); [|intros _ _; exact Hk].
  destruct cond; cbn [when]; [now apply ensures_emit | now apply ensures_pure].
Qed.

(** [x := p.f; k]: [k] runs only when [p] is not nil. *)
Lemma ensures_deref_then {A B} (p : option A) (k : A -> Body R B) (Q : B -> Prop) :
  (forall a, p = Some a -> ensures (k a) P Q) -> ensures (a <- deref p ;; k a) P Q.
Proof.
  intros Hk. destruct p as [a|]; cbn [deref].
  - apply ensures_bind with (Q := fun x => x = a); [now apply ensures_pure|].
    intros a' ->. now apply Hk.
  - apply ensures_bind with (Q := fun _ => False); [apply ensures_panic | intros _ []].
Qed.

(** Calling a function: [k] runs on what it returns. *)
Lemma ensures_call_then {A B} (callee : list Event * Outcome A) (k : A -> Body R B)
    (Q : B -> Prop) :
  emits_only callee P ->
  (forall a, snd callee = Returned a -> ensures (k a) P Q) ->
  ensures (a <- call callee ;; k a) P Q.
Proof.
  intros Hev Hk. apply ensures_bind with (Q := fun a => snd callee = Returned a).
  - destruct callee as [t [a|why|]]; cbn [call]; (split; [exact Hev|]);
      intros a'; try discriminate. intros [= <-]. reflexivity.
  - exact Hk.
Qed.

Lemma ensures_run (m : Body R R) (Q : R -> Prop) : ensures m P Q -> emits_only (run m) P.
Proof. intros [Hm _]. unfold emits_only. destruct m as [t [a|r|why|]]; exact Hm. Qed.
End Rules.

(** [x, err = askForInput(msg, x); if err != nil { return err }; k]: [k]
    runs on the answer. *)
Lemma ensures_ask_then {B} (P : Event -> Prop) w msg orig
    (k : string -> Body (option error) B) (Q : B -> Prop) :
  P (EvAskForInput msg orig) ->
  ensures (k (fst (askForInput w msg orig))) P Q ->
  ensures (x <- ask w msg orig ;; k x) P Q.
Proof.
  intros He Hk. apply ensures_bind with (Q := fun x => x = fst (askForInput w msg orig)).
  - unfold ask. apply ensures_emit_then; [exact He|].
    apply ensures_guard_then. intros _. now apply ensures_pure.
  - intros x ->. exact Hk.
Qed.

(** *** The events of the callees *)

Lemma pollLoop_waiter_events w id fuel :
  forall k since numErr cluster err,
    Forall (fun e => is_waiter_event e = true)
           (fst (pollLoop w id fuel k since numErr cluster err)).
Proof.
  induction fuel as [|fuel IH]; intros k since numErr cluster err; [constructor|].
  rewrite pollLoop_S. destruct (since <? taskPollTimeout); [|constructor].
  cbn zeta. destruct (exceeds numErr _); [repeat constructor|].
  destruct (fst (Clusters_Get w k id)) as [c|]; [|repeat constructor].
  destruct (String.eqb (ToUpper (State c)) "ERROR"); [repeat constructor|].
  destruct (String.eqb (ToUpper (State c)) "READY"); [repeat constructor|].
  cbn [fst]. repeat constructor. apply IH.
Qed.

Lemma waitForCluster_waiter_events w id :
  emits_only (waitForCluster w id) (fun e => is_waiter_event e = true).
Proof.
  unfold emits_only. rewrite waitForCluster_unfold. cbn zeta.
  pose proof (pollLoop_waiter_events w id poll_fuel 0%nat 0 0 None None) as H.
  destruct (snd (pollLoop w id poll_fuel 0%nat 0 0 None None)); cbn [fst];
    constructor; try reflexivity; try exact H.
  apply Forall_app. split; [exact H | repeat constructor].
Qed.

Lemma readSSHKey_file_events w filename :
  emits_only (readSSHKey w filename) (fun e => is_file_event e = true).
Proof.
  unfold emits_only, readSSHKey. destruct (os_Open w filename) as [file|e].
  - cbn. destruct (scanErr file); cbn; [repeat constructor|].
    destruct (validateSSHKey _); cbn; repeat constructor.
  - cbn. repeat constructor.
Qed.

Lemma emits_only_impl {R} (f : list Event * Outcome R) (P P' : Event -> Prop) :
  emits_only f P -> (forall e, P e -> P' e) -> emits_only f P'.
Proof. unfold emits_only. intros H Himp. eapply Forall_impl; eassumption. Qed.

(** *** [createCluster] *)

Lemma ensures_ask (P : Event -> Prop) w msg orig (Q : string -> Prop) :
  P (EvAskForInput msg orig) ->
  Q (fst (askForInput w msg orig)) ->
  ensures (ask w msg orig) P Q.
Proof.
  intros He HQ. unfold ask. apply ensures_emit_then; [exact He|].
  apply ensures_guard_then. intros _. now apply ensures_pure.
Qed.

(** [if cond { body }; k] *)
Lemma ensures_when_then {R B} (P : Event -> Prop) (cond : bool) (body : Body R unit)
    (k : Body R B) (Q : B -> Prop) :
  ensures body P (fun _ => True) -> ensures k P Q -> ensures (when cond body ;;; k) P Q.
Proof.
  intros Hbody Hk. apply ensures_bind with (Q := fun _ => True); [|intros _ _; exact Hk].
  destruct cond; cbn [when]; [exact Hbody | now apply ensures_pure].
Qed.

(** One statement of a body whose events all satisfy the predicate at hand
    trivially, and whose value is not needed afterwards. *)
Ltac obvious := first [exact I | reflexivity].

Ltac step :=
  lazymatch goal with
  | |- ensures (bind (emit _) _) _ _ => apply ensures_emit_then; [obvious|]
  | |- ensures (bind (when _ (return_ _)) _) _ _ => apply ensures_guard_then; intros ?
  | |- ensures (bind (when _ (emit _)) _) _ _ => apply ensures_when_emit_then; [obvious|]
  | |- ensures (bind (when _ _) _) _ _ => apply ensures_when_then
  | |- ensures (bind (deref _) _) _ _ => apply ensures_deref_then; intros ? ?
  | |- ensures (bind (ask _ _ _) _) _ _ => apply ensures_ask_then; [obvious|]
  | |- ensures (bind (if _ then _ else _) _) _ _ =>
      apply ensures_bind with (Q := fun _ => True); [|intros ? _]
  | |- ensures (return_ _) _ _ => apply ensures_return
  | |- ensures (emit _) _ _ => apply ensures_emit; [obvious|exact I]
  | |- ensures (pure _) _ _ => apply ensures_pure; exact I
  | |- ensures (ask _ _ _) _ _ => apply ensures_ask; [obvious|exact I]
  | |- ensures (if ?b then _ else _) _ _ => destruct b eqn:?
  | |- ensures (match ?x with pair _ _ => _ end) _ _ => destruct x
  end.

Lemma waiter_events_carry n e : is_waiter_event e = true -> carries_worker_count n e.
Proof. destruct e; cbn; intros H; try exact I; discriminate. Qed.

Lemma file_events_carry n e : is_file_event e = true -> carries_worker_count n e.
Proof. destruct e; cbn; intros H; try exact I; discriminate. Qed.

Lemma createCluster_worker_count_events w c :
  emits_only (createCluster w c) (carries_worker_count (requested_worker_count w c)).
Proof.
  unfold createCluster. apply ensures_run with (Q := fun _ => True).
  cbn zeta.
  do 8 step.
  apply ensures_bind with (Q := fun asked => snd asked = supplied_worker_count w c).
  { unfold supplied_worker_count.
    destruct (negb (utils_IsNonInteractive w c)); cbn [andb].
    - do 2 step.
      apply ensures_bind with
        (Q := fun n => n = if Int_ c "worker_count" =? 0
                           then fst (Atoi (fst (askForInput w "Worker count: " "")))
                           else Int_ c "worker_count").
      + destruct (Int_ c "worker_count" =? 0).
        * step. step. now apply ensures_pure.
        * now apply ensures_pure.
      + intros n ->. now apply ensures_pure.
    - now apply ensures_pure. }
  intros [[name cluster_type] worker_count] Hcount. cbn [snd] in Hcount. subst worker_count.
  step. step.
  { repeat step. }
  destruct a0 as [[[dns gateway] netmask] ssh_key].
  step. step.
  { step; [|step].
    apply ensures_call_then.
    - eapply emits_only_impl; [apply readSSHKey_file_events | apply file_events_carry].
    - intros r _. repeat step. }
  step.
  { repeat step. }
  step.
  { repeat step. }
  step. step.
  { step; [|step].
    step. apply ensures_emit_then; [reflexivity|]. do 4 step.
    step; [|repeat step].
    step.
    apply ensures_call_then.
    - eapply emits_only_impl; [apply waitForCluster_waiter_events | apply waiter_events_carry].
    - intros r _. repeat step. }
  step.
Qed.

(** C10.  Whenever [createCluster] submits a create request, the worker
    count in it is the count supplied by the flag or, in interactive mode
    with a zero flag, typed at the prompt, except that a supplied zero (also
    an unset flag) is replaced by [DEFAULT_WORKER_COUNT], which is 1: a zero
    count becomes 1, any other count passes through unchanged. *)
Theorem createCluster_defaults_worker_count (w : World) (c : Context)
    (projectID : string) (spec : ClusterCreateSpec) :
  In (EvCreateCluster projectID spec) (fst (createCluster w c)) ->
  SpecWorkerCount spec
  = (if supplied_worker_count w c =? 0 then 1 else supplied_worker_count w c).
Proof.
  intros Hin. pose proof (createCluster_worker_count_events w c) as Hall.
  unfold emits_only in Hall. rewrite List.Forall_forall in Hall.
  exact (Hall _ Hin).
Qed.

Example create_unattended_run :
  createCluster never_ready create_unattended
  = ([EvGetClient true; EvVerifyTenant ""; EvVerifyProject "tenant1" "";
      EvConfirmed true; EvCreateCluster "project1" (sample_request 1);
      EvWaitOnTaskOperation "task1";
      EvPrintln "Note: the cluster has been created with minimal resources. You can use the cluster now.";
      EvPrintln "A background task is running to gradually expand the cluster to its target capacity.";
      EvPrintf ("You can run 'cluster show %s' to see the state of the cluster." +:+ nl) [FmtS "c1"]],
     Returned None).
Proof. vm_compute. reflexivity. Qed.

Example create_five_workers_run :
  In (EvCreateCluster "project1" (sample_request 5))
     (fst (createCluster never_ready create_five_workers)).
Proof. vm_compute. do 4 right. left. reflexivity. Qed.

Lemma createCluster_defaults_worker_count_witness :
  SpecWorkerCount (sample_request 1)
  = (if supplied_worker_count never_ready create_unattended =? 0
     then 1 else supplied_worker_count never_ready create_unattended).
Proof.
  apply (createCluster_defaults_worker_count never_ready create_unattended
           "project1" (sample_request 1)).
  rewrite create_unattended_run. cbn. tauto.
Defined.

(** *** [deleteCluster] *)

(** C9.  When [cluster delete] is not given exactly one argument,
    [checkArgNum] reports an error, yet [deleteCluster] returns nil, and
    nothing has left the function: no client, no prompt, no request.  The
    error is dropped, so the [Action] around the command does not reach
    [log.Fatal]. *)
Theorem deleteCluster_swallows_argument_error (w : World) (c : Context) :
  List.length (Args c) <> 1%nat ->
  checkArgNum (Args c) 1 "cluster delete <id>" <> None
  /\ deleteCluster w c = ([], Returned None)
  /\ Action (deleteCluster w c) = Finished.
Proof.
  intros Hlen. unfold Action, deleteCluster, checkArgNum.
  apply Nat.eqb_neq in Hlen. rewrite Hlen. repeat split. discriminate.
Qed.

Lemma deleteCluster_swallows_argument_error_witness :
  checkArgNum (Args delete_two) 1 "cluster delete <id>" <> None
  /\ deleteCluster never_ready delete_two = ([], Returned None)
  /\ Action (deleteCluster never_ready delete_two) = Finished.
Proof.
  apply (deleteCluster_swallows_argument_error never_ready delete_two).
  cbn. lia.
Defined.

Example delete_nothing_run : deleteCluster never_ready delete_nothing = ([], Returned None).
Proof. reflexivity. Qed.

(** The sibling commands hand the same error to their caller. *)
Lemma resizeCluster_argument_error w c :
  List.length (Args c) <> 2%nat ->
  resizeCluster w c
  = ([], Returned (Some (Foreign "cluster resize <id> <new worker count> [<options>]"))).
Proof.
  intros Hlen. unfold resizeCluster, checkArgNum.
  apply Nat.eqb_neq in Hlen. rewrite Hlen. reflexivity.
Qed.

Lemma createCluster_argument_error w c :
  List.length (Args c) <> 0%nat ->
  createCluster w c = ([], Returned (Some (Foreign "cluster create [<options>]"))).
Proof.
  intros Hlen. unfold createCluster, checkArgNum.
  apply Nat.eqb_neq in Hlen. rewrite Hlen. reflexivity.
Qed.

(** *** Validation *)

Lemma resizeCluster_rejects w c id count :
  Args c = [id; count] ->
  resize_input_invalid id count = true ->
  resizeCluster w c
  = ([], Returned (Some (Errorf "Provide a valid cluster ID and worker count"))).
Proof.
  intros Hargs Hbad. unfold resize_input_invalid in Hbad.
  unfold resizeCluster. rewrite Hargs.
  cbn [checkArgNum List.length Nat.eqb is_nil negb when index nth_error].
  cbn [bind pure]. cbn zeta. rewrite Hbad. reflexivity.
Qed.

Lemma ensures_pure_then {R A B} (P : Event -> Prop) (a : A) (k : A -> Body R B)
    (Q : B -> Prop) :
  ensures (k a) P Q -> ensures (x <- pure a ;; k x) P Q.
Proof.
  intros Hk. apply ensures_bind with (Q := fun x => x = a); [now apply ensures_pure|].
  intros x ->. exact Hk.
Qed.

Lemma missing_required_flag_guards c :
  missing_required_flag c = true ->
  (String.length (String_ c "name") =? 0)%nat
    || (String.length (String_ c "type") =? 0)%nat = false ->
  (String.length (String_ c "dns") =? 0)%nat
    || (String.length (String_ c "gateway") =? 0)%nat
    || (String.length (String_ c "netmask") =? 0)%nat = true.
Proof.
  unfold missing_required_flag. intros Hmiss Hname.
  rewrite <- !orb_assoc in Hmiss. rewrite orb_assoc in Hmiss.
  rewrite Hname in Hmiss. cbn [orb] in Hmiss. rewrite <- orb_assoc. exact Hmiss.
Qed.

Lemma required_inputs_guards w c :
  (String.length (entered w c "Cluster name: " "name") =? 0)%nat
    || (String.length (entered w c "Cluster type: " "type") =? 0)%nat = false ->
  (String.length (entered w c "Cluster DNS server: " "dns") =? 0)%nat
    || (String.length (entered w c "Cluster network gateway: " "gateway") =? 0)%nat
    || (String.length (entered w c "Cluster network netmask: " "netmask") =? 0)%nat = false ->
  required_inputs_present w c = true.
Proof.
  intros Hname Hnet. unfold required_inputs_present, nonempty.
  apply orb_false_iff in Hname as [-> ->].
  apply orb_false_iff in Hnet as [Hnet ->]. apply orb_false_iff in Hnet as [-> ->].
  reflexivity.
Qed.

(** In either mode, [createCluster] with one of its five required inputs
    empty never gets as far as the create request, whatever the helpers
    answer. *)
Lemma createCluster_rejects_missing_input w c :
  required_inputs_present w c = false ->
  emits_only (createCluster w c) (fun e => reaches_control_plane e = false).
Proof.
  intros Hmiss. unfold createCluster. apply ensures_run with (Q := fun _ => True).
  cbn zeta.
  do 8 step.
  apply ensures_bind with
    (Q := fun asked => fst (fst asked) = entered w c "Cluster name: " "name"
                       /\ snd (fst asked) = entered w c "Cluster type: " "type").
  { unfold entered. destruct (negb (utils_IsNonInteractive w c)).
    - do 2 step. step; [repeat step|].
      apply ensures_pure. split; reflexivity.
    - apply ensures_pure. split; reflexivity. }
  intros [[name cluster_type] worker_count] [Hn Ht]. cbn [fst snd] in Hn, Ht. subst.
  apply ensures_guard_then. intros Hname.
  apply ensures_bind with
    (Q := fun asked => fst (fst (fst asked)) = entered w c "Cluster DNS server: " "dns"
                       /\ snd (fst (fst asked)) = entered w c "Cluster network gateway: " "gateway"
                       /\ snd (fst asked) = entered w c "Cluster network netmask: " "netmask").
  { unfold entered. destruct (negb (utils_IsNonInteractive w c)).
    - do 4 step. apply ensures_pure. repeat split.
    - apply ensures_pure. repeat split. }
  intros [[[dns gateway] netmask] ssh_key] (Hd & Hg & Hm). cbn [fst snd] in Hd, Hg, Hm. subst.
  apply ensures_guard_then. intros Hnet.
  rewrite (required_inputs_guards w c Hname Hnet) in Hmiss. discriminate.
Qed.

Lemma required_inputs_unattended w c :
  utils_IsNonInteractive w c = true ->
  required_inputs_present w c = negb (missing_required_flag c).
Proof.
  intros Hni. unfold required_inputs_present, missing_required_flag, entered, nonempty.
  rewrite Hni. cbn [negb]. rewrite !negb_orb. reflexivity.
Qed.

Lemma bind_pure {R A B} (a : A) (k : A -> Body R B) : (x <- pure a ;; k x) = k a.
Proof. unfold bind, pure. destruct (k a). reflexivity. Qed.

Lemma run_emit {R} e (k : Body R R) :
  run (emit e ;;; k) = (e :: fst (run k), snd (run k)).
Proof. unfold bind, emit, run. destruct k as [t [a|r|why|]]; reflexivity. Qed.

Lemma run_return {R A} (r : R) (k : A -> Body R R) :
  run (x <- return_ r ;; k x) = ([], Returned r).
Proof. reflexivity. Qed.

(** When the client, the tenant and the project are obtained, the
    validation error is what comes back, right after those three calls. *)
Lemma createCluster_validation_error w c tenant project :
  Args c = [] ->
  utils_IsNonInteractive w c = true ->
  required_inputs_present w c = false ->
  client_GetClient w (GlobalIsSet c "non-interactive") = None ->
  verifyTenant w (String_ c "tenant") = (Some tenant, None) ->
  verifyProject w (TenantID tenant) (String_ c "project") = (project, None) ->
  createCluster w c
  = ([EvGetClient (GlobalIsSet c "non-interactive");
      EvVerifyTenant (String_ c "tenant");
      EvVerifyProject (TenantID tenant) (String_ c "project")],
     Returned (Some (create_validation_error c))).
Proof.
  intros Hargs Hni Hmiss Hclient Htenant Hproject.
  rewrite (required_inputs_unattended w c Hni) in Hmiss. apply negb_false_iff in Hmiss.
  unfold createCluster. cbn zeta.
  rewrite Hargs, Hni, Hclient, Htenant. cbn [fst snd].
  cbn [checkArgNum List.length Nat.eqb is_nil negb when deref].
  rewrite bind_pure, run_emit, bind_pure, run_emit, !bind_pure, run_emit.
  rewrite Hproject. cbn [snd is_nil negb when]. rewrite !bind_pure. cbn beta iota.
  unfold create_validation_error.
  destruct ((String.length (String_ c "name") =? 0)%nat
            || (String.length (String_ c "type") =? 0)%nat) eqn:Hname; cbn [when].
  - rewrite run_return. reflexivity.
  - rewrite !bind_pure. cbn beta iota.
    rewrite (missing_required_flag_guards c Hmiss Hname). cbn [when].
    rewrite run_return. reflexivity.
Qed.

Example resize_input_invalid_samples :
  resize_input_invalid "c1" "many" = true
  /\ resize_input_invalid "c1" "0" = true
  /\ resize_input_invalid "c1" "-3" = true
  /\ resize_input_invalid "" "3" = true
  /\ resize_input_invalid "c1" "3" = false.
Proof. repeat split. Qed.

(** C8, as the code has it.  [resizeCluster] with an empty cluster ID or
    with a worker count that is not a decimal integer or is not positive
    returns its validation error before anything leaves the function.
    [createCluster] with an empty name, type, DNS, gateway or netmask (the
    flag, or in interactive mode the answer at the prompt) never sends the
    create request, nor anything after it.  It validates after it has
    obtained the client and resolved the tenant and the project: run without
    prompts, when these three calls succeed, the validation error comes back
    right after them, each call made once. *)
Theorem validation_precedes_the_request (w : World) (c : Context) :
  (forall id count,
      Args c = [id; count] ->
      resize_input_invalid id count = true ->
      resizeCluster w c
      = ([], Returned (Some (Errorf "Provide a valid cluster ID and worker count"))))
  /\ (required_inputs_present w c = false ->
      emits_only (createCluster w c) (fun e => reaches_control_plane e = false)
      /\ forall tenant project,
          Args c = [] ->
          utils_IsNonInteractive w c = true ->
          client_GetClient w (GlobalIsSet c "non-interactive") = None ->
          verifyTenant w (String_ c "tenant") = (Some tenant, None) ->
          verifyProject w (TenantID tenant) (String_ c "project") = (project, None) ->
          createCluster w c
          = ([EvGetClient (GlobalIsSet c "non-interactive");
              EvVerifyTenant (String_ c "tenant");
              EvVerifyProject (TenantID tenant) (String_ c "project")],
             Returned (Some (create_validation_error c)))).
Proof.
  split.
  - intros id count. apply resizeCluster_rejects.
  - intros Hmiss. split.
    + now apply createCluster_rejects_missing_input.
    + intros tenant project Hargs Hni Hclient Htenant Hproject.
      apply (createCluster_validation_error w c tenant project); assumption.
Qed.

Lemma validation_precedes_the_request_witness :
  resizeCluster never_ready resize_to_many
  = ([], Returned (Some (Errorf "Provide a valid cluster ID and worker count")))
  /\ emits_only (createCluster never_ready create_nameless)
                (fun e => reaches_control_plane e = false)
  /\ createCluster never_ready create_nameless
     = ([EvGetClient true; EvVerifyTenant "acme"; EvVerifyProject "tenant1" ""],
        Returned (Some (Errorf "Provide a valid cluster name and type"))).
Proof.
  split.
  - apply (proj1 (validation_precedes_the_request never_ready resize_to_many) "c1" "many");
      reflexivity.
  - destruct (proj2 (validation_precedes_the_request never_ready create_nameless))
      as [Hnone Hexact]; [reflexivity|].
    split; [exact Hnone|].
    apply (Hexact (mkTenant "tenant1") (Some (mkProject "project1"))); reflexivity.
Defined.

(** C8, as stated, fails on [create_nameless] where the tenant cannot be
    resolved: the name flag is empty, yet what comes back is the error of
    the tenant lookup, not a validation error, and the client and the
    tenant lookup were called before any validation of the flags. *)
Lemma createCluster_validates_late_counterexample :
  String_ create_nameless "name" = ""
  /\ createCluster tenant_unknown create_nameless
     = ([EvGetClient true; EvVerifyTenant "acme"],
        Returned (Some (Foreign "tenant not found")))
  /\ createCluster tenant_unknown create_nameless
     <> ([], Returned (Some (create_validation_error create_nameless))).
Proof.
  split; [reflexivity|]. split; [reflexivity|]. discriminate.
Qed.

(** With prompts, an empty answer for the name stops the command as well:
    here the name flag is missing and the prompt gives back the empty
    string. *)
Example create_prompted_nameless_run :
  createCluster never_ready create_prompted_nameless
  = ([EvGetClient false; EvVerifyTenant "acme"; EvVerifyProject "tenant1" "";
      EvAskForInput "Cluster name: " ""; EvAskForInput "Cluster type: " "kubernetes";
      EvAskForInput "Worker count: " ""],
     Returned (Some (Errorf "Please supply a valid worker count")))
  /\ createCluster never_ready (context_of [] (("tenant", "acme") :: ("type", "kubernetes") :: network_flags)
                                           [("worker_count", 2)] [])
     = ([EvGetClient false; EvVerifyTenant "acme"; EvVerifyProject "tenant1" "";
         EvAskForInput "Cluster name: " ""; EvAskForInput "Cluster type: " "kubernetes"],
        Returned (Some (Errorf "Provide a valid cluster name and type"))).
Proof. split; reflexivity. Qed.

Example resize_to_zero_run :
  resizeCluster never_ready resize_to_zero
  = ([], Returned (Some (Errorf "Provide a valid cluster ID and worker count"))).
Proof. reflexivity. Qed.

(** The fourth failed fetch in all ends the wait on [flaky]. *)
Example flaky_run :
  snd (waitForCluster flaky "c1") = Returned (Some creating, Some unreachable)
  /\ List.length (filter is_waiter_event (fst (waitForCluster flaky "c1"))) = 16%nat.
Proof. vm_compute. split; reflexivity. Qed.

(** * More on the readiness waiter *)

Lemma fetches_cons e t :
  fetches (e :: t) = ((if is_fetch e then 1 else 0) + fetches t)%nat.
Proof. unfold fetches. cbn [List.filter]. destruct (is_fetch e); reflexivity. Qed.

Lemma fetches_app t t' : fetches (t ++ t') = (fetches t + fetches t')%nat.
Proof. unfold fetches. rewrite List.filter_app, List.length_app. reflexivity. Qed.

(** Each fetch but the last is followed by a sleep of [taskPollDelay], so
    the fetches that fit before the timeout are bounded by the time left. *)
Lemma pollLoop_fetch_bound w id fuel :
  forall k since numErr cluster err,
    0 <= since ->
    (since < taskPollTimeout ->
     Z.of_nat (fetches (fst (pollLoop w id fuel k since numErr cluster err))) * taskPollDelay
     <= taskPollTimeout - since + taskPollDelay - 1)
    /\ (taskPollTimeout <= since ->
        fetches (fst (pollLoop w id fuel k since numErr cluster err)) = 0%nat).
Proof.
  induction fuel as [|fuel IH]; intros k since numErr cluster err Hsince.
  { cbn. split; intros; [constants; lia | reflexivity]. }
  rewrite pollLoop_S. destruct (since <? taskPollTimeout) eqn:Hlt.
  2:{ apply Z.ltb_ge in Hlt. split; [lia | reflexivity]. }
  apply Z.ltb_lt in Hlt. split; [intros _ | lia]. cbn zeta.
  destruct (exceeds numErr _); [cbn; constants; lia|].
  destruct (fst (Clusters_Get w k id)) as [c|]; [|cbn; constants; lia].
  destruct (String.eqb (ToUpper (State c)) "ERROR"); [cbn; constants; lia|].
  destruct (String.eqb (ToUpper (State c)) "READY"); [cbn; constants; lia|].
  cbn [fst]. rewrite !fetches_cons. cbn [is_fetch].
  pose proof (next_since_grows w k since) as Hgrow.
  destruct (IH (S k) (next_since w k since) (bump numErr (Clusters_Get w k id))
               (Some c) (snd (Clusters_Get w k id))) as [Hbefore Hafter];
    [constants; lia|].
  destruct (Z.lt_ge_cases (next_since w k since) taskPollTimeout) as [Hn|Hn].
  - specialize (Hbefore Hn). constants. lia.
  - rewrite (Hafter Hn). constants. lia.
Qed.

(** X1.  Whatever the fetches answer and however long they take, a wait
    makes at most 1800 fetches (one every two seconds for an hour), and it
    ends: it returns or it panics. *)
Theorem waitForCluster_makes_at_most_1800_fetches (w : World) (id : string) :
  (fetches (fst (waitForCluster w id)) <= 1800)%nat
  /\ snd (waitForCluster w id) <> OutOfFuel.
Proof.
  split; [|apply waitForCluster_total].
  rewrite waitForCluster_unfold. cbn zeta.
  destruct (pollLoop_fetch_bound w id poll_fuel 0%nat 0 0 None None) as [Hbound _]; [lia|].
  specialize (Hbound ltac:(constants; lia)).
  assert (Hloop : (fetches (fst (pollLoop w id poll_fuel 0%nat 0 0 None None)) <= 1800)%nat)
    by (constants; lia).
  destruct (snd (pollLoop w id poll_fuel 0%nat 0 0 None None)); cbn [fst];
    rewrite fetches_cons; cbn [is_fetch]; try lia.
  rewrite fetches_app. change (fetches [EvEndAnimation; EvWgWait]) with 0%nat. lia.
Qed.

(** The bound is met when the resource stays in CREATING. *)
Example never_ready_fetches : fetches (fst (waitForCluster never_ready "c1")) = 1800%nat.
Proof. vm_compute. reflexivity. Qed.

(** A [return] of the loop with a nil error comes from a fetch that
    succeeded with a READY resource. *)
Lemma pollLoop_nil_error w id fuel :
  forall k since numErr cluster err cl,
    snd (pollLoop w id fuel k since numErr cluster err) = Return (cl, None) ->
    exists j c, Clusters_Get w j id = (Some c, None)
                /\ cl = Some c /\ ToUpper (State c) = "READY".
Proof.
  induction fuel as [|fuel IH]; intros k since numErr cluster err cl; [discriminate|].
  rewrite pollLoop_S. destruct (since <? taskPollTimeout); [|discriminate].
  cbn zeta. unfold exceeds.
  destruct (Clusters_Get w k id) as [g e] eqn:Hget. cbn [fst snd].
  destruct (negb (is_nil e) && (bump numErr (g, e) >? taskRetryCount)) eqn:Hex.
  { intros [= -> ->]. discriminate. }
  destruct g as [c|]; [|discriminate].
  destruct (String.eqb (ToUpper (State c)) "ERROR"); [discriminate|].
  destruct (String.eqb (ToUpper (State c)) "READY") eqn:Hready.
  - intros [= <- ->]. exists k, c. apply String.eqb_eq in Hready. auto.
  - cbn [snd]. apply IH.
Qed.

(** X2.  If a wait returns a nil error, the resource it returns is not nil:
    it is the answer of a fetch that succeeded, and its state is READY in
    some letter case. *)
Theorem waitForCluster_nil_error_means_ready (w : World) (id : string)
    (cl : option Cluster) :
  snd (waitForCluster w id) = Returned (cl, None) ->
  exists j c, Clusters_Get w j id = (Some c, None)
              /\ cl = Some c /\ ToUpper (State c) = "READY".
Proof.
  rewrite waitForCluster_unfold. cbn zeta.
  pose proof (pollLoop_nil_error w id poll_fuel 0%nat 0 0 None None cl) as H.
  destruct (snd (pollLoop w id poll_fuel 0%nat 0 0 None None)) as [r|r|why|];
    cbn [snd]; intros Hret; try discriminate.
  apply H. now injection Hret as ->.
Qed.

Lemma waitForCluster_nil_error_means_ready_witness :
  exists j c, Clusters_Get becomes_ready j "c1" = (Some c, None)
              /\ Some ready = Some c /\ ToUpper (State c) = "READY".
Proof.
  apply (waitForCluster_nil_error_means_ready becomes_ready "c1" (Some ready)).
  vm_compute. reflexivity.
Defined.




(** * [readSSHKey] *)

(** X4.  [readSSHKey] closes the file exactly when it has opened it, once,
    as its last action, whichever way it leaves; when the file cannot be
    opened it returns the empty key and the error of [os.Open], and makes no
    other call. *)
Theorem readSSHKey_closes_what_it_opens (w : World) (filename : string) :
  match os_Open w filename with
  | inl _ => fst (readSSHKey w filename) = [EvOpen filename; EvClose filename]
  | inr e => readSSHKey w filename = ([EvOpen filename], Returned ("", Some e))
  end.
Proof.
  unfold readSSHKey. destruct (os_Open w filename) as [file|e]; [|reflexivity].
  cbn. destruct (scanErr file); cbn; [reflexivity|].
  destruct (validateSSHKey _); reflexivity.
Qed.

(** X5.  [readSSHKey] returns a nil error exactly when the file opens, the
    scanner reports no error, the first line is not empty once trimmed, and
    the file closes without error; the key it returns is then that trimmed
    first line. *)
Theorem readSSHKey_succeeds_iff (w : World) (filename key : string) :
  snd (readSSHKey w filename) = Returned (key, None)
  <-> exists file,
        os_Open w filename = inl file
        /\ scanErr file = None
        /\ closeErr file = None
        /\ key = strings_TrimSpace w (firstLine file)
        /\ key <> "".
Proof.
  unfold readSSHKey. split.
  - destruct (os_Open w filename) as [file|e]; [|discriminate].
    cbn. destruct (scanErr file) as [se|] eqn:Hscan; cbn.
    { destruct (closeErr file); discriminate. }
    unfold validateSSHKey.
    destruct (strings_TrimSpace w (firstLine file)) as [|a s] eqn:Hkey; cbn.
    { destruct (closeErr file); discriminate. }
    destruct (closeErr file) eqn:Hclose; [discriminate|].
    intros [= <-]. exists file.
    split; [reflexivity|]. split; [assumption|]. split; [assumption|].
    split; [now rewrite Hkey | discriminate].
  - intros (file & -> & Hscan & Hclose & -> & Hne). cbn. rewrite Hscan. cbn.
    unfold validateSSHKey.
    destruct (strings_TrimSpace w (firstLine file)) as [|a s]; [contradiction|].
    cbn. rewrite Hclose. reflexivity.
Qed.

(** X6.  When the file opens but [Close] fails, the error of [Close] is
    what [readSSHKey] returns, whatever happened before: it replaces a scan
    error and the empty-key error, and it comes together with the key when
    the key was read well. *)
Theorem readSSHKey_close_error_overrides (w : World) (filename : string)
    (file : File) (e : error) :
  os_Open w filename = inl file ->
  closeErr file = Some e ->
  snd (readSSHKey w filename)
  = Returned (if is_nil (scanErr file) && nonempty (strings_TrimSpace w (firstLine file))
              then strings_TrimSpace w (firstLine file) else "",
              Some e).
Proof.
  intros Hopen Hclose. unfold readSSHKey. rewrite Hopen. cbn.
  destruct (scanErr file); cbn; [rewrite Hclose; reflexivity|].
  unfold validateSSHKey, nonempty.
  destruct (String.length (strings_TrimSpace w (firstLine file)) =? 0)%nat; cbn;
    rewrite Hclose; reflexivity.
Qed.

Lemma readSSHKey_close_error_overrides_witness :
  snd (readSSHKey (world_with_file key_file_unclosable) "id_rsa.pub")
  = Returned (if is_nil (scanErr key_file_unclosable)
                 && nonempty (strings_TrimSpace (world_with_file key_file_unclosable)
                                                (firstLine key_file_unclosable))
              then strings_TrimSpace (world_with_file key_file_unclosable)
                                     (firstLine key_file_unclosable)
              else "",
              Some (Foreign "close: input/output error")).
Proof.
  apply (readSSHKey_close_error_overrides (world_with_file key_file_unclosable) "id_rsa.pub"
           key_file_unclosable (Foreign "close: input/output error")); reflexivity.
Defined.

Example readSSHKey_unclosable_run :
  readSSHKey (world_with_file key_file_unclosable) "id_rsa.pub"
  = ([EvOpen "id_rsa.pub"; EvClose "id_rsa.pub"],
     Returned ("ssh-rsa AAAAB3Nza demo", Some (Foreign "close: input/output error"))).
Proof. reflexivity. Qed.

Example readSSHKey_run :
  readSSHKey (world_with_file key_file) "id_rsa.pub"
  = ([EvOpen "id_rsa.pub"; EvClose "id_rsa.pub"], Returned ("ssh-rsa AAAAB3Nza demo", None)).
Proof. reflexivity. Qed.

(** * What the commands send, and when *)

Lemma pollLoop_polls w id fuel :
  forall k since numErr cluster err,
    Forall (fun e => is_waiter_event e = true /\ polls id e)
           (fst (pollLoop w id fuel k since numErr cluster err)).
Proof.
  induction fuel as [|fuel IH]; intros k since numErr cluster err; [constructor|].
  rewrite pollLoop_S. destruct (since <? taskPollTimeout); [|constructor].
  cbn zeta. destruct (exceeds numErr _); [repeat constructor|].
  destruct (fst (Clusters_Get w k id)) as [c|]; [|repeat constructor].
  destruct (String.eqb (ToUpper (State c)) "ERROR"); [repeat constructor|].
  destruct (String.eqb (ToUpper (State c)) "READY"); [repeat constructor|].
  cbn [fst]. repeat constructor. apply IH.
Qed.

Lemma waitForCluster_polls w id :
  emits_only (waitForCluster w id) (fun e => is_waiter_event e = true /\ polls id e).
Proof.
  unfold emits_only. rewrite waitForCluster_unfold. cbn zeta.
  pose proof (pollLoop_polls w id poll_fuel 0%nat 0 0 None None) as H.
  destruct (snd (pollLoop w id poll_fuel 0%nat 0 0 None None)); cbn [fst];
    constructor; try (split; [reflexivity | exact I]); try exact H.
  apply Forall_app. split; [exact H | repeat constructor].
Qed.

Lemma pair_of_parts {A B} (p : A * B) (a : A) (b : B) : fst p = a -> snd p = b -> p = (a, b).
Proof. destruct p. cbn. congruence. Qed.

Lemma guard_nil {A} (p : option A) : negb (is_nil p) = false -> p = None.
Proof. destruct p; [discriminate | reflexivity]. Qed.

Lemma createCluster_events_ok w c : emits_only (createCluster w c) (create_event_ok w c).
Proof.
  unfold createCluster. apply ensures_run with (Q := fun _ => True).
  cbn zeta.
  do 8 step.
  apply ensures_bind with (Q := fun _ => True); [repeat step|].
  intros [[name cluster_type] worker_count] _.
  apply ensures_guard_then. intros Hname.
  apply ensures_bind with (Q := fun asked => snd asked = entered_ssh_key w c).
  { unfold entered_ssh_key, entered. destruct (negb (utils_IsNonInteractive w c)).
    - do 4 step. now apply ensures_pure.
    - now apply ensures_pure. }
  intros [[[dns gateway] netmask] ssh_key] Hssh. cbn [snd] in Hssh. subst ssh_key.
  apply ensures_guard_then. intros Hnet.
  apply ensures_bind with
    (Q := fun _ => nonempty (entered_ssh_key w c) = true ->
                   exists key, snd (readSSHKey w (entered_ssh_key w c)) = Returned (key, None)).
  { destruct (nonempty (entered_ssh_key w c)).
    - apply ensures_call_then.
      + eapply emits_only_impl; [apply readSSHKey_file_events|].
        intros e. destruct e; cbn; intros He; try exact I; discriminate.
      + intros [key e] Hr. cbn [fst snd]. destruct e as [e|]; cbn [is_nil].
        * apply ensures_return.
        * apply ensures_pure. intros _. now exists key.
    - apply ensures_pure. discriminate. }
  intros extended_properties Hkey.
  apply ensures_bind with (Q := fun _ => supported_type (ToUpper cluster_type) = true).
  { unfold supported_type.
    destruct (String.eqb (ToUpper cluster_type) "KUBERNETES").
    { step; [repeat step|]. repeat step. now apply ensures_pure. }
    destruct (String.eqb (ToUpper cluster_type) "MESOS").
    { step; [repeat step|]. repeat step. now apply ensures_pure. }
    destruct (String.eqb (ToUpper cluster_type) "SWARM").
    { step; [repeat step|]. repeat step. now apply ensures_pure. }
    apply ensures_return. }
  intros properties Htype.
  step.
  { repeat step. }
  step. step; [|step].
  destruct (confirmed w (utils_IsNonInteractive w c)) eqn:Hconfirmed; [|repeat step].
  apply ensures_deref_then. intros project Hproject.
  apply ensures_emit_then.
  { cbn. split; [exact Hconfirmed|]. split.
    - unfold nonempty. apply orb_false_iff in Hname as [-> _]. reflexivity.
    - split; assumption. }
  apply ensures_guard_then. intros Herr.
  apply ensures_deref_then. intros task Htask.
  apply ensures_emit_then; [exact Hconfirmed|].
  apply ensures_guard_then. intros Hwait.
  destruct (IsSet c "wait-for-ready") eqn:Hflag; [|repeat step].
  step.
  apply ensures_call_then; [|intros r _; repeat step].
  eapply emits_only_impl; [apply waitForCluster_polls|].
  intros e [Hwaiter Hpolls].
  assert (Hfacts : exists projectID spec task0,
             Projects_CreateCluster w projectID spec = (Some task0, None)
             /\ waitOnTaskOperation w (TaskID task0) = None
             /\ polls (EntityID (TaskEntity task0)) e).
  { eexists _, _, task. split; [|split; [|exact Hpolls]].
    - apply pair_of_parts; [exact Htask | now apply guard_nil].
    - now apply guard_nil. }
  destruct e; cbn in Hwaiter; try discriminate; cbn; auto.
Qed.

(** [x := args[i]; k]: [k] runs only when the index is in range. *)
Lemma ensures_index_then {R B} (P : Event -> Prop) (args : list string) (i : nat)
    (k : string -> Body R B) (Q : B -> Prop) :
  (forall a, nth_error args i = Some a -> ensures (k a) P Q) ->
  ensures (a <- index args i ;; k a) P Q.
Proof.
  intros Hk. unfold index. destruct (nth_error args i) as [a|].
  - apply ensures_pure_then. now apply Hk.
  - apply ensures_bind with (Q := fun _ => False); [apply ensures_panic | intros _ []].
Qed.

Lemma checkArgNum_passes args num usage :
  negb (is_nil (checkArgNum args num usage)) = false -> List.length args = num.
Proof.
  unfold checkArgNum. destruct (Nat.eqb_spec (List.length args) num); [auto | discriminate].
Qed.

Lemma two_arguments (args : list string) a b :
  List.length args = 2%nat -> nth_error args 0 = Some a -> nth_error args 1 = Some b ->
  args = [a; b].
Proof.
  destruct args as [|x [|y [|z args]]]; cbn; try discriminate. now intros _ [= ->] [= ->].
Qed.

Lemma one_argument (args : list string) :
  List.length args = 1%nat -> args = [First args].
Proof. destruct args as [|x [|y args]]; cbn; try discriminate. reflexivity. Qed.

Lemma resizeCluster_events_ok w c : emits_only (resizeCluster w c) (resize_event_ok w c).
Proof.
  unfold resizeCluster. apply ensures_run with (Q := fun _ => True).
  cbn zeta.
  apply ensures_guard_then. intros Hargs. apply checkArgNum_passes in Hargs.
  apply ensures_index_then. intros cluster_id Hid.
  apply ensures_index_then. intros count Hcount.
  pose proof (two_arguments _ _ _ Hargs Hid Hcount) as Hboth.
  apply ensures_guard_then. intros Hvalid.
  apply orb_false_iff in Hvalid as [Hvalid Hpositive].
  apply orb_false_iff in Hvalid as [Hnonempty Hnumber].
  do 4 step. step; [|step].
  destruct (confirmed w (utils_IsNonInteractive w c)) eqn:Hconfirmed; [|repeat step].
  apply ensures_emit_then.
  { cbn. split; [exact Hconfirmed|]. split; [unfold nonempty; now rewrite Hnonempty|].
    split; [lia|]. exists count. split; [exact Hboth|].
    apply pair_of_parts; [reflexivity | now apply guard_nil]. }
  apply ensures_guard_then. intros Herr.
  apply ensures_deref_then. intros task Htask.
  apply ensures_emit_then; [exact Hconfirmed|].
  apply ensures_guard_then. intros Hwait.
  destruct (IsSet c "wait-for-ready") eqn:Hflag; [|repeat step].
  apply ensures_call_then; [|intros r _; repeat step].
  eapply emits_only_impl; [apply waitForCluster_polls|].
  intros e [Hwaiter Hpolls].
  assert (Hfacts : exists id count0, Args c = [id; count0] /\ polls id e)
    by (now exists cluster_id, count).
  destruct e; cbn in Hwaiter; try discriminate; cbn; auto.
Qed.

Lemma deleteCluster_events_ok w c : emits_only (deleteCluster w c) (delete_event_ok w c).
Proof.
  unfold deleteCluster. apply ensures_run with (Q := fun _ => True).
  cbn zeta.
  apply ensures_guard_then. intros Hargs. apply checkArgNum_passes in Hargs.
  apply ensures_guard_then. intros Hnonempty.
  do 4 step. step; [|step].
  destruct (confirmed w (utils_IsNonInteractive w c)) eqn:Hconfirmed; [|repeat step].
  apply ensures_emit_then.
  { cbn. split; [exact Hconfirmed|]. split; [unfold nonempty; now rewrite Hnonempty|].
    now apply one_argument. }
  apply ensures_guard_then. intros Herr.
  apply ensures_deref_then. intros task Htask.
  apply ensures_emit_then; [exact Hconfirmed|].
  destruct (negb (is_nil (waitOnTaskOperation w (TaskID task)))); cbn [when];
    [apply ensures_return | now apply ensures_pure].
Qed.

Lemma event_of_trace {R} (f : list Event * Outcome R) (P : Event -> Prop) e :
  emits_only f P -> In e (fst f) -> P e.
Proof. unfold emits_only. rewrite List.Forall_forall. auto. Qed.

(** X7.  Every create request that [createCluster] sends has a name that
    is not empty and a type that is KUBERNETES, MESOS or SWARM, in upper
    case whatever the case it was given in. *)
Theorem createCluster_request_is_valid (w : World) (c : Context)
    (projectID : string) (spec : ClusterCreateSpec) :
  In (EvCreateCluster projectID spec) (fst (createCluster w c)) ->
  SpecName spec <> ""
  /\ (SpecType spec = "KUBERNETES" \/ SpecType spec = "MESOS" \/ SpecType spec = "SWARM").
Proof.
  intros Hin.
  destruct (event_of_trace _ _ _ (createCluster_events_ok w c) Hin) as (_ & Hname & Htype & _).
  split.
  - intros Hempty. rewrite Hempty in Hname. discriminate.
  - unfold supported_type in Htype.
    apply orb_true_iff in Htype as [Htype|Htype];
      [apply orb_true_iff in Htype as [Htype|Htype]|];
      apply String.eqb_eq in Htype; auto.
Qed.

Lemma createCluster_request_is_valid_witness :
  SpecName (sample_request 1) <> ""
  /\ (SpecType (sample_request 1) = "KUBERNETES" \/ SpecType (sample_request 1) = "MESOS"
      \/ SpecType (sample_request 1) = "SWARM").
Proof.
  apply (createCluster_request_is_valid never_ready create_unattended "project1"
           (sample_request 1)).
  rewrite create_unattended_run. cbn. tauto.
Defined.

(** X8.  When a key file is named, by the flag or at the prompt,
    [createCluster] sends a create request only if [readSSHKey] has read
    that file without error. *)
Theorem createCluster_sends_only_with_readable_key (w : World) (c : Context)
    (projectID : string) (spec : ClusterCreateSpec) :
  In (EvCreateCluster projectID spec) (fst (createCluster w c)) ->
  entered_ssh_key w c <> "" ->
  exists key, snd (readSSHKey w (entered_ssh_key w c)) = Returned (key, None).
Proof.
  intros Hin Hnamed.
  destruct (event_of_trace _ _ _ (createCluster_events_ok w c) Hin) as (_ & _ & _ & Hkey).
  apply Hkey. unfold nonempty. destruct (entered_ssh_key w c); [contradiction | reflexivity].
Qed.

Example create_with_key_run :
  createCluster (world_with_file key_file) create_with_key
  = ([EvGetClient true; EvVerifyTenant ""; EvVerifyProject "tenant1" "";
      EvOpen "id_rsa.pub"; EvClose "id_rsa.pub";
      EvConfirmed true; EvCreateCluster "project1" sample_request_with_key;
      EvWaitOnTaskOperation "task1";
      EvPrintln "Note: the cluster has been created with minimal resources. You can use the cluster now.";
      EvPrintln "A background task is running to gradually expand the cluster to its target capacity.";
      EvPrintf ("You can run 'cluster show %s' to see the state of the cluster." +:+ nl) [FmtS "c1"]],
     Returned None).
Proof. vm_compute. reflexivity. Qed.

Example create_with_missing_key_run :
  createCluster never_ready create_with_key
  = ([EvGetClient true; EvVerifyTenant ""; EvVerifyProject "tenant1" ""; EvOpen "id_rsa.pub"],
     Returned (Some (Foreign "no such file or directory"))).
Proof. vm_compute. reflexivity. Qed.

Lemma createCluster_sends_only_with_readable_key_witness :
  exists key,
    snd (readSSHKey (world_with_file key_file)
                    (entered_ssh_key (world_with_file key_file) create_with_key))
    = Returned (key, None).
Proof.
  apply (createCluster_sends_only_with_readable_key (world_with_file key_file) create_with_key
           "project1" sample_request_with_key).
  - rewrite create_with_key_run. do 6 right. left. reflexivity.
  - discriminate.
Defined.

Lemma declined_is_silent (P : Event -> Prop) (f : list Event * Outcome (option error)) :
  emits_only f P ->
  (forall e, P e -> reaches_control_plane e = false) ->
  emits_only f (fun e => reaches_control_plane e = false).
Proof. intros H Himp. eapply emits_only_impl; eassumption. Qed.

(** X9.  When the confirmation is declined, none of the three commands
    sends anything to the control plane: no create, resize or delete
    request, no wait for a task, no fetch of a cluster. *)
Theorem declined_commands_send_nothing (w : World) (c : Context) :
  confirmed w (utils_IsNonInteractive w c) = false ->
  emits_only (createCluster w c) (fun e => reaches_control_plane e = false)
  /\ emits_only (resizeCluster w c) (fun e => reaches_control_plane e = false)
  /\ emits_only (deleteCluster w c) (fun e => reaches_control_plane e = false).
Proof.
  intros Hdeclined. repeat split.
  - apply (declined_is_silent _ _ (createCluster_events_ok w c)).
    intros e He. destruct e; cbn in *; try reflexivity; try contradiction;
      rewrite Hdeclined in He; try discriminate; destruct He; discriminate.
  - apply (declined_is_silent _ _ (resizeCluster_events_ok w c)).
    intros e He. destruct e; cbn in *; try reflexivity; try contradiction;
      rewrite Hdeclined in He; try discriminate; destruct He; discriminate.
  - apply (declined_is_silent _ _ (deleteCluster_events_ok w c)).
    intros e He. destruct e; cbn in *; try reflexivity; try contradiction;
      rewrite Hdeclined in He; try discriminate; destruct He; discriminate.
Qed.

Lemma declined_commands_send_nothing_witness :
  emits_only (createCluster declining create_unattended)
             (fun e => reaches_control_plane e = false)
  /\ emits_only (resizeCluster declining create_unattended)
                (fun e => reaches_control_plane e = false)
  /\ emits_only (deleteCluster declining create_unattended)
                (fun e => reaches_control_plane e = false).
Proof.
  apply (declined_commands_send_nothing declining create_unattended). reflexivity.
Defined.

Example declined_runs :
  createCluster declining create_unattended
  = ([EvGetClient true; EvVerifyTenant ""; EvVerifyProject "tenant1" ""; EvConfirmed true;
      EvPrintln "Cancelled"], Returned None)
  /\ resizeCluster declining resize_to_five
     = ([EvGetClient true; EvConfirmed true; EvPrintln "Cancelled"], Returned None)
  /\ deleteCluster declining delete_one
     = ([EvGetClient true; EvConfirmed true; EvPrintln "Cancelled"], Returned None).
Proof. repeat split. Qed.

(** X10.  Without [--wait-for-ready] neither [createCluster] nor
    [resizeCluster] starts the readiness wait: no reporter, no fetch, no
    sleep; and [deleteCluster] never starts it at all. *)
Theorem readiness_wait_only_on_request (w : World) (c : Context) :
  (IsSet c "wait-for-ready" = false ->
   emits_only (createCluster w c) (fun e => is_waiter_event e = false)
   /\ emits_only (resizeCluster w c) (fun e => is_waiter_event e = false))
  /\ emits_only (deleteCluster w c) (fun e => is_waiter_event e = false).
Proof.
  split; [intros Hflag; split|].
  - eapply emits_only_impl; [apply createCluster_events_ok|].
    intros e He. destruct e; cbn in *; try reflexivity;
      destruct He as (_ & He & _); rewrite Hflag in He; discriminate.
  - eapply emits_only_impl; [apply resizeCluster_events_ok|].
    intros e He. destruct e; cbn in *; try reflexivity;
      destruct He as (_ & He & _); rewrite Hflag in He; discriminate.
  - eapply emits_only_impl; [apply deleteCluster_events_ok|].
    intros e He. destruct e; cbn in *; try reflexivity; contradiction.
Qed.

Lemma readiness_wait_only_on_request_witness :
  emits_only (createCluster never_ready create_unattended) (fun e => is_waiter_event e = false)
  /\ emits_only (resizeCluster never_ready create_unattended) (fun e => is_waiter_event e = false).
Proof.
  apply (proj1 (readiness_wait_only_on_request never_ready create_unattended)). reflexivity.
Defined.

(** X11.  Every resize request that [resizeCluster] sends is for the
    cluster named by the first of exactly two arguments, a name that is not
    empty, and carries the second argument read by [strconv.Atoi] without
    error, a positive number. *)
Theorem resizeCluster_request_is_valid (w : World) (c : Context)
    (id : string) (op : ClusterResizeOperation) :
  In (EvResize id op) (fst (resizeCluster w c)) ->
  id <> ""
  /\ 0 < NewWorkerCount op
  /\ exists count, Args c = [id; count] /\ Atoi count = (NewWorkerCount op, None).
Proof.
  intros Hin.
  destruct (event_of_trace _ _ _ (resizeCluster_events_ok w c) Hin)
    as (_ & Hid & Hpos & Hargs).
  split; [|split; assumption].
  intros Hempty. rewrite Hempty in Hid. discriminate.
Qed.

Example resize_to_five_run :
  resizeCluster never_ready resize_to_five
  = ([EvGetClient true; EvConfirmed true; EvResize "c1" {| NewWorkerCount := 5 |};
      EvWaitOnTaskOperation "task1";
      EvPrintln "Note: A background task is running to gradually resize the cluster to its target capacity.";
      EvPrintf ("You may continue to use the cluster. You can run 'cluster show %s'" +:+ nl)
               [FmtS "c1"];
      EvPrintln "to see the state of the cluster. If the resize operation is still in progress, the cluster state";
      EvPrintln "will show as RESIZING. Once the cluster is resized, the cluster state will show as READY."],
     Returned None).
Proof. reflexivity. Qed.

Lemma resizeCluster_request_is_valid_witness :
  "c1" <> ""
  /\ 0 < NewWorkerCount {| NewWorkerCount := 5 |}
  /\ exists count, Args resize_to_five = ["c1"; count]
                   /\ Atoi count = (NewWorkerCount {| NewWorkerCount := 5 |}, None).
Proof.
  apply (resizeCluster_request_is_valid never_ready resize_to_five "c1" {| NewWorkerCount := 5 |}).
  rewrite resize_to_five_run. cbn. tauto.
Defined.

(** X12.  Every delete request that [deleteCluster] sends is for its one
    argument, which is not empty; given one empty argument, the command
    returns its validation error before anything leaves the function. *)
Theorem deleteCluster_request_is_valid (w : World) (c : Context) :
  (forall id, In (EvDelete id) (fst (deleteCluster w c)) -> Args c = [id] /\ id <> "")
  /\ (Args c = [""] ->
      deleteCluster w c = ([], Returned (Some (Errorf "Please provide a valid cluster ID")))).
Proof.
  split.
  - intros id Hin.
    destruct (event_of_trace _ _ _ (deleteCluster_events_ok w c) Hin) as (_ & Hid & Hargs).
    split; [exact Hargs|]. intros Hempty. rewrite Hempty in Hid. discriminate.
  - intros Hargs. unfold deleteCluster. rewrite Hargs. reflexivity.
Qed.

Example delete_one_run :
  deleteCluster never_ready delete_one
  = ([EvGetClient true; EvConfirmed true; EvDelete "c1"; EvWaitOnTaskOperation "task1"],
     Returned None).
Proof. reflexivity. Qed.

Lemma deleteCluster_request_is_valid_witness :
  (Args delete_one = ["c1"] /\ "c1" <> "")
  /\ deleteCluster never_ready delete_unnamed
     = ([], Returned (Some (Errorf "Please provide a valid cluster ID"))).
Proof.
  split.
  - apply (proj1 (deleteCluster_request_is_valid never_ready delete_one) "c1").
    rewrite delete_one_run. cbn. tauto.
  - apply (proj2 (deleteCluster_request_is_valid never_ready delete_unnamed)). reflexivity.
Defined.



(** X14.  [resizeCluster] fetches no other cluster than the one named by
    its first argument. *)
Theorem resizeCluster_polls_the_resized_cluster (w : World) (c : Context)
    (k : nat) (id : string) :
  In (EvClustersGet k id) (fst (resizeCluster w c)) ->
  exists count, Args c = [id; count].
Proof.
  intros Hin.
  destruct (event_of_trace _ _ _ (resizeCluster_events_ok w c) Hin)
    as (_ & _ & id' & count & Hargs & Hid).
  cbn in Hid. subst id'. now exists count.
Qed.

Lemma resizeCluster_polls_the_resized_cluster_witness :
  exists count, Args resize_and_wait = ["c1"; count].
Proof.
  apply (resizeCluster_polls_the_resized_cluster becomes_ready resize_and_wait 2 "c1").
  vm_compute. tauto.
Defined.

Example resize_and_wait_run :
  resizeCluster becomes_ready resize_and_wait
  = ([EvGetClient true; EvConfirmed true; EvResize "c1" {| NewWorkerCount := 5 |};
      EvWaitOnTaskOperation "task1"; EvGoDisplayTaskProgress;
      EvClustersGet 0 "c1"; EvSleep taskPollDelay;
      EvClustersGet 1 "c1"; EvSleep taskPollDelay;
      EvClustersGet 2 "c1"; EvEndAnimation; EvWgWait;
      EvPrintf ("Cluster %s is ready" +:+ nl) [FmtS "c1"]],
     Returned None).
Proof. vm_compute. reflexivity. Qed.

Lemma createCluster_without_client w c e :
  Args c = [] ->
  client_GetClient w (GlobalIsSet c "non-interactive") = Some e ->
  createCluster w c = ([EvGetClient (GlobalIsSet c "non-interactive")], Returned (Some e)).
Proof.
  intros Hargs Hclient. unfold createCluster. cbn zeta. rewrite Hargs, Hclient.
  cbn [checkArgNum List.length Nat.eqb is_nil negb when].
  rewrite bind_pure, run_emit, run_return. reflexivity.
Qed.

Lemma resizeCluster_without_client w c e id count :
  Args c = [id; count] ->
  resize_input_invalid id count = false ->
  client_GetClient w (utils_IsNonInteractive w c) = Some e ->
  resizeCluster w c = ([EvGetClient (utils_IsNonInteractive w c)], Returned (Some e)).
Proof.
  intros Hargs Hvalid Hclient. unfold resize_input_invalid in Hvalid.
  unfold resizeCluster. cbn zeta. rewrite Hargs, Hclient.
  cbn [checkArgNum List.length Nat.eqb is_nil negb when index nth_error].
  rewrite !bind_pure, Hvalid. cbn [when].
  rewrite bind_pure, run_emit, run_return. reflexivity.
Qed.

Lemma deleteCluster_without_client w c e id :
  Args c = [id] ->
  id <> "" ->
  client_GetClient w (utils_IsNonInteractive w c) = Some e ->
  deleteCluster w c = ([EvGetClient (utils_IsNonInteractive w c)], Returned (Some e)).
Proof.
  intros Hargs Hid Hclient. unfold deleteCluster. cbn zeta. rewrite Hargs, Hclient.
  cbn [checkArgNum List.length Nat.eqb is_nil negb when First].
  destruct id as [|a id]; [contradiction|]. cbn [String.length Nat.eqb when].
  rewrite !bind_pure, run_emit, run_return. reflexivity.
Qed.

(** X15.  When [client.GetClient] fails, a command whose arguments pass
    validation returns that error as it is, and the call for the client is
    the only thing that has left the function: no prompt, no tenant or
    project lookup, no request. *)
Theorem commands_stop_without_client (w : World) (c : Context) (e : error) :
  (Args c = [] ->
   client_GetClient w (GlobalIsSet c "non-interactive") = Some e ->
   createCluster w c = ([EvGetClient (GlobalIsSet c "non-interactive")], Returned (Some e)))
  /\ (client_GetClient w (utils_IsNonInteractive w c) = Some e ->
      (forall id count,
          Args c = [id; count] ->
          resize_input_invalid id count = false ->
          resizeCluster w c = ([EvGetClient (utils_IsNonInteractive w c)], Returned (Some e)))
      /\ (forall id,
             Args c = [id] ->
             id <> "" ->
             deleteCluster w c = ([EvGetClient (utils_IsNonInteractive w c)], Returned (Some e)))).
Proof.
  split; [apply createCluster_without_client|].
  intros Hclient. split.
  - intros id count Hargs Hvalid. now apply resizeCluster_without_client with id count.
  - intros id Hargs Hid. now apply deleteCluster_without_client with id.
Qed.

Lemma commands_stop_without_client_witness :
  createCluster no_client create_unattended
  = ([EvGetClient true], Returned (Some (Foreign "no target set")))
  /\ resizeCluster no_client resize_to_five
     = ([EvGetClient true], Returned (Some (Foreign "no target set")))
  /\ deleteCluster no_client delete_one
     = ([EvGetClient true], Returned (Some (Foreign "no target set"))).
Proof.
  split; [|split].
  - apply (proj1 (commands_stop_without_client no_client create_unattended
                    (Foreign "no target set"))); reflexivity.
  - apply (proj1 (proj2 (commands_stop_without_client no_client resize_to_five
                           (Foreign "no target set")) eq_refl) "c1" "5"); reflexivity.
  - apply (proj2 (proj2 (commands_stop_without_client no_client delete_one
                           (Foreign "no target set")) eq_refl) "c1"); [reflexivity | discriminate].
Defined.

(** * The extended properties of a create request *)

Ltac distinct_keys H :=
  unfold key_list in H;
  repeat (let Hnotin := fresh "Hnotin" in
          apply NoDup_cons in H as [Hnotin H];
          rewrite ?not_elem_of_cons in Hnotin);
  clear H; destruct_and?.

Ltac key_ne := first [assumption | apply not_eq_sym; assumption].

Ltac lookup_step :=
  first [ rewrite lookup_insert_eq
        | rewrite lookup_insert_ne by key_ne
        | rewrite lookup_empty ].

Ltac lookups :=
  unfold holds_network_settings, third_needs_second;
  repeat split; repeat constructor;
  repeat lookup_step;
  repeat match goal with H : _ !! _ = None |- _ => rewrite H end;
  first [ assumption | reflexivity
        | intros [? ?]; discriminate
        | intros _; eexists; reflexivity ].

Lemma createCluster_properties_ok w c :
  NoDup (key_list (keys w)) ->
  emits_only (createCluster w c) (request_properties_ok w c).
Proof.
  intros Hkeys. distinct_keys Hkeys.
  unfold createCluster. apply ensures_run with (Q := fun _ => True).
  cbn zeta.
  do 8 step.
  apply ensures_bind with (Q := fun _ => True); [repeat step|].
  intros [[name cluster_type] worker_count] _.
  apply ensures_guard_then. intros Hname.
  apply ensures_bind with
    (Q := fun asked => fst (fst (fst asked)) = entered w c "Cluster DNS server: " "dns"
                       /\ snd (fst (fst asked)) = entered w c "Cluster network gateway: " "gateway"
                       /\ snd (fst asked) = entered w c "Cluster network netmask: " "netmask").
  { unfold entered. destruct (negb (utils_IsNonInteractive w c)).
    - do 4 step. apply ensures_pure. repeat split.
    - apply ensures_pure. repeat split. }
  intros [[[dns gateway] netmask] ssh_key] (Hd & Hg & Hm). cbn [fst snd] in Hd, Hg, Hm. subst.
  apply ensures_guard_then. intros Hnet.
  apply ensures_bind with
    (Q := holds_network_settings w c
            [ExtendedPropertyMasterIP (keys w); ExtendedPropertyContainerNetwork (keys w);
             ExtendedPropertyETCDIP1 (keys w); ExtendedPropertyETCDIP2 (keys w);
             ExtendedPropertyETCDIP3 (keys w); ExtendedPropertyZookeeperIP1 (keys w);
             ExtendedPropertyZookeeperIP2 (keys w); ExtendedPropertyZookeeperIP3 (keys w)]).
  { destruct (nonempty ssh_key).
    - apply ensures_call_then.
      + eapply emits_only_impl; [apply readSSHKey_file_events|].
        intros e. destruct e; cbn; intros He; try exact I; discriminate.
      + intros [key e] _. cbn [fst snd]. destruct e as [e|]; cbn [is_nil].
        * apply ensures_return.
        * apply ensures_pure. lookups.
    - apply ensures_pure. lookups. }
  intros properties (Hdns & Hgateway & Hnetmask & Habsent).
  repeat match goal with H : Forall _ (_ :: _) |- _ => apply Forall_cons in H as [? H] end.
  clear Habsent.
  apply ensures_bind with
    (Q := fun m => holds_network_settings w c (foreign_keys (keys w) (ToUpper cluster_type)) m
                   /\ third_needs_second (keys w) m).
  { unfold foreign_keys.
    destruct (String.eqb (ToUpper cluster_type) "KUBERNETES").
    { step; [repeat step|]. repeat step. apply ensures_pure.
      repeat match goal with |- context [nonempty ?s] => destruct (nonempty s) end; lookups. }
    destruct (String.eqb (ToUpper cluster_type) "MESOS").
    { step; [repeat step|]. repeat step. apply ensures_pure.
      repeat match goal with |- context [nonempty ?s] => destruct (nonempty s) end; lookups. }
    destruct (String.eqb (ToUpper cluster_type) "SWARM").
    { step; [repeat step|]. repeat step. apply ensures_pure.
      repeat match goal with |- context [nonempty ?s] => destruct (nonempty s) end; lookups. }
    apply ensures_return. }
  intros final [Hsettings Hthird].
  step.
  { repeat step. }
  step. step; [|step].
  destruct (confirmed w (utils_IsNonInteractive w c)); [|repeat step].
  apply ensures_deref_then. intros project Hproject.
  apply ensures_emit_then; [split; assumption|].
  do 4 step.
  destruct (IsSet c "wait-for-ready"); [|repeat step].
  step.
  apply ensures_call_then; [|intros r _; repeat step].
  eapply emits_only_impl; [apply waitForCluster_waiter_events|].
  intros e. destruct e; cbn; intros He; try exact I; discriminate.
Qed.

Lemma sample_keys_distinct : NoDup (key_list sample_keys).
Proof. apply (bool_decide_unpack _). vm_compute. exact I. Qed.

(** X16.  When the twelve property keys are pairwise distinct, every create
    request carries the DNS server, the gateway and the netmask under their
    keys, as given by the flag or answered at the prompt, and none of the
    three is empty. *)
Theorem createCluster_request_holds_network_settings (w : World) (c : Context)
    (projectID : string) (spec : ClusterCreateSpec) :
  NoDup (key_list (keys w)) ->
  In (EvCreateCluster projectID spec) (fst (createCluster w c)) ->
  ExtendedProperties spec !! ExtendedPropertyDNS (keys w)
  = Some (entered w c "Cluster DNS server: " "dns")
  /\ ExtendedProperties spec !! ExtendedPropertyGateway (keys w)
     = Some (entered w c "Cluster network gateway: " "gateway")
  /\ ExtendedProperties spec !! ExtendedPropertyNetMask (keys w)
     = Some (entered w c "Cluster network netmask: " "netmask")
  /\ entered w c "Cluster DNS server: " "dns" <> ""
  /\ entered w c "Cluster network gateway: " "gateway" <> ""
  /\ entered w c "Cluster network netmask: " "netmask" <> "".
Proof.
  intros Hkeys Hin.
  destruct (event_of_trace _ _ _ (createCluster_properties_ok w c Hkeys) Hin)
    as [(Hdns & Hgateway & Hnetmask & _) _].
  split; [exact Hdns|]. split; [exact Hgateway|]. split; [exact Hnetmask|].
  destruct (required_inputs_present w c) eqn:Hpresent.
  - unfold required_inputs_present, nonempty in Hpresent.
    repeat (apply andb_true_iff in Hpresent as [Hpresent ?]).
    repeat split; intros Hempty;
      match goal with
      | H : negb (String.length ?s =? 0)%nat = true, E : ?s = _ |- _ =>
        rewrite E in H; discriminate
      end.
  - pose proof (event_of_trace _ _ _ (createCluster_rejects_missing_input w c Hpresent) Hin).
    discriminate.
Qed.

Lemma createCluster_request_holds_network_settings_witness :
  ExtendedProperties (sample_request 1) !! ExtendedPropertyDNS (keys never_ready)
  = Some (entered never_ready create_unattended "Cluster DNS server: " "dns")
  /\ ExtendedProperties (sample_request 1) !! ExtendedPropertyGateway (keys never_ready)
     = Some (entered never_ready create_unattended "Cluster network gateway: " "gateway")
  /\ ExtendedProperties (sample_request 1) !! ExtendedPropertyNetMask (keys never_ready)
     = Some (entered never_ready create_unattended "Cluster network netmask: " "netmask")
  /\ entered never_ready create_unattended "Cluster DNS server: " "dns" <> ""
  /\ entered never_ready create_unattended "Cluster network gateway: " "gateway" <> ""
  /\ entered never_ready create_unattended "Cluster network netmask: " "netmask" <> "".
Proof.
  apply (createCluster_request_holds_network_settings never_ready create_unattended
           "project1" (sample_request 1)).
  - exact sample_keys_distinct.
  - rewrite create_unattended_run. do 4 right. left. reflexivity.
Defined.

(** X17.  When the twelve property keys are pairwise distinct, a create
    request carries a third etcd address only together with a second one,
    and a third Zookeeper address only together with a second one; and it
    carries no key that belongs to another cluster type: no Zookeeper
    address in a KUBERNETES request, no master IP, container network or etcd
    address in a MESOS request, no master IP, container network or Zookeeper
    address in a SWARM request. *)
Theorem createCluster_request_keys_fit_the_type (w : World) (c : Context)
    (projectID : string) (spec : ClusterCreateSpec) :
  NoDup (key_list (keys w)) ->
  In (EvCreateCluster projectID spec) (fst (createCluster w c)) ->
  (is_Some (ExtendedProperties spec !! ExtendedPropertyETCDIP3 (keys w))
   -> is_Some (ExtendedProperties spec !! ExtendedPropertyETCDIP2 (keys w)))
  /\ (is_Some (ExtendedProperties spec !! ExtendedPropertyZookeeperIP3 (keys w))
      -> is_Some (ExtendedProperties spec !! ExtendedPropertyZookeeperIP2 (keys w)))
  /\ Forall (fun k => ExtendedProperties spec !! k = None)
            (foreign_keys (keys w) (SpecType spec)).
Proof.
  intros Hkeys Hin.
  destruct (event_of_trace _ _ _ (createCluster_properties_ok w c Hkeys) Hin)
    as [(_ & _ & _ & Hforeign) [Hetcd Hzookeeper]].
  split; [exact Hetcd|]. split; [exact Hzookeeper | exact Hforeign].
Qed.

Lemma createCluster_request_keys_fit_the_type_witness :
  (is_Some (ExtendedProperties (sample_request 1) !! ExtendedPropertyETCDIP3 (keys never_ready))
   -> is_Some (ExtendedProperties (sample_request 1) !! ExtendedPropertyETCDIP2 (keys never_ready)))
  /\ (is_Some (ExtendedProperties (sample_request 1)
               !! ExtendedPropertyZookeeperIP3 (keys never_ready))
      -> is_Some (ExtendedProperties (sample_request 1)
                  !! ExtendedPropertyZookeeperIP2 (keys never_ready)))
  /\ Forall (fun k => ExtendedProperties (sample_request 1) !! k = None)
            (foreign_keys (keys never_ready) (SpecType (sample_request 1))).
Proof.
  apply (createCluster_request_keys_fit_the_type never_ready create_unattended
           "project1" (sample_request 1)).
  - exact sample_keys_distinct.
  - rewrite create_unattended_run. do 4 right. left. reflexivity.
Defined.

Lemma readSSHKey_succeeds_iff_witness :
  snd (readSSHKey (world_with_file key_file) "id_rsa.pub")
  = Returned ("ssh-rsa AAAAB3Nza demo", None).
Proof.
  apply (proj2 (readSSHKey_succeeds_iff (world_with_file key_file) "id_rsa.pub"
                  "ssh-rsa AAAAB3Nza demo")).
  exists key_file. repeat split. discriminate.
Defined.

(** * [showCluster]: the choice of the master VMs *)

Lemma scan_tags_spec vm tags master_vms :
  scan_tags vm tags master_vms
  = master_vms ++ (if existsb is_master_tag tags then [vm] else []).
Proof.
  induction tags as [|tag tags IH]; cbn [scan_tags existsb]; [now rewrite app_nil_r|].
  destruct (is_master_tag tag); [reflexivity | exact IH].
Qed.

Lemma collect_master_vms_spec items :
  forall master_vms,
    collect_master_vms items master_vms
    = master_vms ++ List.filter (fun vm => existsb is_master_tag (Tags vm)) items.
Proof.
  induction items as [|vm items IH]; intros master_vms; cbn [collect_master_vms List.filter];
    [now rewrite app_nil_r|].
  rewrite IH, scan_tags_spec, <- app_assoc.
  destruct (existsb is_master_tag (Tags vm)); reflexivity.
Qed.

(** X18.  The two loops of [showCluster] select, in their order and once
    each, the VMs that have a tag with exactly two colons that does not
    contain the word worker in any letter case: a VM is listed exactly when
    it is among the VMs of the cluster and has such a tag. *)
Theorem master_vms_are_the_tagged_vms (items : list VM) :
  master_vms_of items = List.filter (fun vm => existsb is_master_tag (Tags vm)) items
  /\ forall vm,
       In vm (master_vms_of items)
       <-> In vm items
           /\ exists tag, In tag (Tags vm)
                          /\ Count tag ":" = 2%nat
                          /\ Contains (ToLower tag) "worker" = false.
Proof.
  assert (Heq : master_vms_of items
                = List.filter (fun vm => existsb is_master_tag (Tags vm)) items).
  { unfold master_vms_of. now rewrite collect_master_vms_spec. }
  split; [exact Heq|]. intros vm. rewrite Heq, List.filter_In, List.existsb_exists.
  unfold is_master_tag. split.
  - intros [Hin (tag & Htag & Hcond)]. split; [exact Hin|]. exists tag.
    apply andb_true_iff in Hcond as [Hcount Hworker].
    apply Nat.eqb_eq in Hcount. apply negb_true_iff in Hworker. auto.
  - intros [Hin (tag & Htag & Hcount & Hworker)]. split; [exact Hin|]. exists tag.
    split; [exact Htag|]. rewrite Hcount, Hworker. reflexivity.
Qed.

(** A worker is not listed, whatever the letter case of its tag; a VM
    without tags is not listed; a worker that also has another tag with two
    colons is listed. *)
Example master_vms_sample :
  master_vms_of [worker_vm; master_vm; plain_vm; relabelled_worker_vm; master_vm]
  = [master_vm; relabelled_worker_vm; master_vm].
Proof. reflexivity. Qed.

Example ToLower_samples :
  ToLower "Worker-KUBERNETES" = "worker-kubernetes"
  /\ Contains (ToLower "cluster:3f2a:WORKER") "worker" = true
  /\ Contains (ToLower "cluster:3f2a:master") "worker" = false.
Proof. repeat split. Qed.

(** * The errors of the readiness waiter *)

Lemma pollLoop_errors w id fuel :
  forall k since numErr cluster err cl e,
    snd (pollLoop w id fuel k since numErr cluster err) = Return (cl, Some e) ->
    (e = Errorf (error_state_message id)
     /\ exists j c, fst (Clusters_Get w j id) = Some c /\ cl = Some c
                    /\ ToUpper (State c) = "ERROR")
    \/ exists j, Clusters_Get w j id = (cl, Some e).
Proof.
  induction fuel as [|fuel IH]; intros k since numErr cluster err cl e; [discriminate|].
  rewrite pollLoop_S. destruct (since <? taskPollTimeout); [|discriminate].
  cbn zeta. destruct (exceeds numErr _).
  { intros [= Hcl He]. right. exists k. destruct (Clusters_Get w k id). cbn in *. congruence. }
  destruct (fst (Clusters_Get w k id)) as [c|] eqn:Hfst; [|discriminate].
  destruct (String.eqb (ToUpper (State c)) "ERROR") eqn:Herror.
  { intros [= <- <-]. left. split; [reflexivity|]. exists k, c.
    apply String.eqb_eq in Herror. auto. }
  destruct (String.eqb (ToUpper (State c)) "READY").
  { intros [= <- He]. right. exists k. destruct (Clusters_Get w k id). cbn in *. congruence. }
  cbn [snd]. apply IH.
Qed.

(** X19.  An error that [waitForCluster] returns is one of three: the
    timeout error; the error [Cluster <id> entered ERROR state], returned
    with a fetched cluster whose state is ERROR in some letter case; or the
    error of one of its fetches, returned unchanged with the cluster that
    this fetch handed over. *)
Theorem waitForCluster_errors (w : World) (id : string) (cl : option Cluster) (e : error) :
  snd (waitForCluster w id) = Returned (cl, Some e) ->
  e = Errorf "Timed out while waiting for cluster to enter READY state"
  \/ (e = Errorf ("Cluster " +:+ id +:+ " entered ERROR state")
      /\ exists j c, fst (Clusters_Get w j id) = Some c /\ cl = Some c
                     /\ ToUpper (State c) = "ERROR")
  \/ exists j, Clusters_Get w j id = (cl, Some e).
Proof.
  rewrite waitForCluster_unfold. cbn zeta.
  pose proof (pollLoop_errors w id poll_fuel 0%nat 0 0 None None cl e) as H.
  destruct (snd (pollLoop w id poll_fuel 0%nat 0 0 None None)) as [r|r|why|];
    cbn [snd]; intros Hret; try discriminate.
  - left. now injection Hret as _ <-.
  - right. apply H. now injection Hret as ->.
Qed.

Lemma waitForCluster_errors_witness :
  unreachable = Errorf "Timed out while waiting for cluster to enter READY state"
  \/ (unreachable = Errorf ("Cluster " +:+ "c1" +:+ " entered ERROR state")
      /\ exists j c, fst (Clusters_Get flaky j "c1") = Some c /\ Some creating = Some c
                     /\ ToUpper (State c) = "ERROR")
  \/ exists j, Clusters_Get flaky j "c1" = (Some creating, Some unreachable).
Proof.
  apply (waitForCluster_errors flaky "c1" (Some creating) unreachable).
  vm_compute. reflexivity.
Defined.
